(** * ai-news-bot: the RSS -> summary -> Notion pipeline of [server.js]

    A shallow embedding of the five functions of [server.js]
    ([fetchLatestArticles], [summarizeArticle], [addToNotionPage],
    [processAINews] and the [/run-now] handler) as computations in a
    state-and-exception monad.  The state is the module-level
    [processedArticles] set together with the sequence of effects the
    process has performed so far (console lines, network calls, timer
    waits and writes to the set).  What the outside world answers during
    one run (feeds, clock, language model, document service) is an
    [Env]; what the JavaScript host fixes for the whole process (date
    parsing, local time zone, process environment) is a [Host]. *)

From Stdlib Require Import ZArith List String Ascii Bool Lia.
From Stdlib Require Import DecimalString.
Import ListNotations.

Local Open Scope string_scope.
Local Open Scope list_scope.
Local Open Scope Z_scope.

(** String concatenation, as a template literal or [+] performs it. *)
Infix "+++" := String.append (right associativity, at level 60).
Arguments String.append : simpl never.

(** ** JavaScript values that occur in the program *)

Module JS.

(** A property of a parsed feed item, or a model reply, is a string, or is
    absent ([undefined]), or is [null]. *)
Inductive value : Type :=
| undefined
| null
| str (s : string).

Definition value_eqb (a b : value) : bool :=
  match a, b with
  | undefined, undefined => true
  | null, null => true
  | str s, str t => String.eqb s t
  | _, _ => false
  end.

(** [ToBoolean]: the empty string, [undefined] and [null] are falsy. *)
Definition truthy (v : value) : bool :=
  match v with
  | str EmptyString => false
  | str _ => true
  | _ => false
  end.

(** [a || b] *)
Definition or (a b : value) : value := if truthy a then a else b.

(** [ToString], as a template literal applies it to [${v}]. *)
Definition ToString (v : value) : string :=
  match v with
  | undefined => "undefined"
  | null => "null"
  | str s => s
  end.

(** [String(n)] for a length. *)
Definition Number_toString (n : nat) : string :=
  NilZero.string_of_uint (Nat.to_uint n).

(** A thrown value: an [Error] object with its [message]. *)
Record Error : Type := mkError { message : value }.

(** The completion of a call: it returns or it throws. *)
Inductive completion (A : Type) : Type :=
| Normal (a : A)
| Throw (e : Error).
Arguments Normal {A} a.
Arguments Throw {A} e.

(** [new Set()]: insertion-ordered, no duplicates; [has] and [add]. *)
Definition Set_has (s : list value) (v : value) : bool :=
  existsb (value_eqb v) s.

Definition Set_add (s : list value) (v : value) : list value :=
  if Set_has s v then s else s ++ [v].

End JS.
Import JS.

Declare Scope js_scope.
Delimit Scope js_scope with js.
Infix "||" := JS.or (at level 50, left associativity) : js_scope.

(** ** Dates (ECMA-262, "Date Objects")

    A time value is a number of milliseconds since the epoch; a [Date]
    holds a time value or [NaN] ([None]). *)

Module DateObj.

Definition msPerDay : Z := 86400000.

Definition Day (t : Z) : Z := t / msPerDay.
Definition TimeWithinDay (t : Z) : Z := t mod msPerDay.

Definition DaysInYear (y : Z) : Z :=
  if (y mod 4 =? 0) && (negb (y mod 100 =? 0) || (y mod 400 =? 0))
  then 366 else 365.

Definition DayFromYear (y : Z) : Z :=
  365 * (y - 1970) + (y - 1969) / 4 - (y - 1901) / 100 + (y - 1601) / 400.

Definition TimeFromYear (y : Z) : Z := msPerDay * DayFromYear y.

(** The year that contains [t]: an estimate from the mean year length,
    moved by one where the estimate falls on the wrong side. *)
Definition YearFromTime (t : Z) : Z :=
  let y := 1970 + (t * 10000) / (msPerDay * 3652425) in
  if t <? TimeFromYear y then y - 1
  else if TimeFromYear y + msPerDay * DaysInYear y <=? t then y + 1
  else y.

Definition InLeapYear (t : Z) : Z :=
  if DaysInYear (YearFromTime t) =? 366 then 1 else 0.

Definition DayWithinYear (t : Z) : Z := Day t - DayFromYear (YearFromTime t).

(** Day number within the year of the first day of month [m] (0 = January). *)
Definition monthStart (m leap : Z) : Z :=
  match m with
  | 0 => 0
  | 1 => 31
  | 2 => 59 + leap
  | 3 => 90 + leap
  | 4 => 120 + leap
  | 5 => 151 + leap
  | 6 => 181 + leap
  | 7 => 212 + leap
  | 8 => 243 + leap
  | 9 => 273 + leap
  | 10 => 304 + leap
  | _ => 334 + leap
  end.

Definition MonthFromTime (t : Z) : Z :=
  let d := DayWithinYear t in
  let leap := InLeapYear t in
  if d <? 31 then 0
  else if d <? 59 + leap then 1
  else if d <? 90 + leap then 2
  else if d <? 120 + leap then 3
  else if d <? 151 + leap then 4
  else if d <? 181 + leap then 5
  else if d <? 212 + leap then 6
  else if d <? 243 + leap then 7
  else if d <? 273 + leap then 8
  else if d <? 304 + leap then 9
  else if d <? 334 + leap then 10
  else 11.

Definition DateFromTime (t : Z) : Z :=
  DayWithinYear t - monthStart (MonthFromTime t) (InLeapYear t) + 1.

(** [MakeDay(year, month, date)]: the day number of the first of the
    month, plus [date - 1]; months outside 0..11 carry into the year. *)
Definition MakeDay (year month date : Z) : Z :=
  let ym := year + month / 12 in
  let mn := month mod 12 in
  let leap := if DaysInYear ym =? 366 then 1 else 0 in
  DayFromYear ym + monthStart mn leap + date - 1.

Definition MakeDate (day time : Z) : Z := day * msPerDay + time.

Definition TimeClip (t : Z) : option Z :=
  if Z.abs t <=? 8640000000000000 then Some t else None.

Section LocalZone.

(** [LocalTZA t isUTC]: the offset of the host's local time zone in
    milliseconds, at the UTC instant [t] ([isUTC = true]) or at the local
    time [t] ([isUTC = false]). *)
Variable LocalTZA : Z -> bool -> Z.

Definition LocalTime (t : Z) : Z := t + LocalTZA t true.
Definition UTC (t : Z) : Z := t - LocalTZA t false.

(** [Date.prototype.getDate] and [Date.prototype.setDate] on a valid
    time value [tv]. *)
Definition getDate (tv : Z) : Z := DateFromTime (LocalTime tv).

Definition setDate (tv : Z) (dt : Z) : option Z :=
  let t := LocalTime tv in
  let newDate :=
    MakeDate (MakeDay (YearFromTime t) (MonthFromTime t) dt) (TimeWithinDay t) in
  TimeClip (UTC newDate).

End LocalZone.

(** [a > b] on two [Date]s: a comparison of time values, false when
    either is [NaN]. *)
Definition gt (a b : option Z) : bool :=
  match a, b with
  | Some x, Some y => y <? x
  | _, _ => false
  end.

End DateObj.

(** ** The data that crosses the program's boundaries *)

(** An item and a feed as [rss-parser] hands them over; only the
    properties the program reads. *)
Record Item : Type := mkItem {
  item_title : value;
  item_link : value;
  item_contentSnippet : value;
  item_content : value;
  item_pubDate : value;
  item_isoDate : value;
  item_summary : value }.

Record Feed : Type := mkFeed {
  feed_title : value;
  feed_items : list Item }.

(** The object literal built at lines 50-57. *)
Record Article : Type := mkArticle {
  title : value;
  link : value;
  content : value;
  source : value;
  pubDate : value;
  summary : value }.

(** The request of [openai.chat.completions.create] (lines 87-92);
    [temperature] in tenths. *)
Record ChatRequest : Type := mkChatRequest {
  model : string;
  messages : list (string * string);
  max_tokens : Z;
  temperature_tenths : Z }.

(** A chat completion: [choices], each with or without a [message], whose
    [content] is a string or [null]. *)
Record Choice : Type := mkChoice { choice_message : option value }.

(** Notion blocks, as the object literals of [addToNotionPage] shape
    them. *)
Record RichText : Type := mkRichText {
  text_content : value;
  text_link : option value;
  annotations_bold : bool;
  annotations_color : option string }.

Inductive Block : Type :=
| heading_2 (rich_text : list RichText)
| heading_3 (rich_text : list RichText)
| paragraph (rich_text : list RichText)
| divider.

(** What a call to a collaborator comes back with. *)
Inductive Reply (A : Type) : Type :=
| Resolves (a : A)
| Rejects (e : Error).
Arguments Resolves {A} a.
Arguments Rejects {A} e.

(** The outside world during one run of the pipeline. *)
Record Env : Type := mkEnv {
  (** [parser.parseURL(feedUrl)] *)
  parseURL : string -> Reply Feed;
  (** the instant [new Date()] reads at line 44, once that feed is parsed *)
  Date_now : string -> Z;
  (** [openai.chat.completions.create(request)] *)
  chat_completions_create : ChatRequest -> Reply (list Choice);
  (** [new Date().toLocaleDateString('ko-KR')] at line 104 *)
  today_koKR : string;
  (** [notion.blocks.children.append({block_id, children})] *)
  blocks_children_append : value -> list Block -> Reply unit }.

(** What the host fixes for the life of the process. *)
Record Host : Type := mkHost {
  (** [Date.parse]: the time value of a date string, or [NaN] *)
  Date_parse : string -> option Z;
  LocalTZA : Z -> bool -> Z;
  (** [process.env.NOTION_PAGE_ID] *)
  NOTION_PAGE_ID : value }.

(** ** Effects and the monad *)

(** Everything the process does that is visible outside a function. *)
Inductive Effect : Type :=
| console_log (line : string)
| console_error (label : string) (detail : value)
| console_error_obj (label : string) (e : Error)
| call_parseURL (feedUrl : string)
| call_chat_create (request : ChatRequest)
| call_blocks_append (block_id : value) (children : list Block)
| wait_setTimeout (ms : Z)
| processedArticles_add (v : value).

Record State : Type := mkState {
  processedArticles : list value;
  effects : list Effect }.

Definition M (A : Type) : Type := State -> completion A * State.

Definition ret {A} (a : A) : M A := fun st => (Normal a, st).

Definition throw {A} (e : Error) : M A := fun st => (Throw e, st).

Definition bind {A B} (m : M A) (k : A -> M B) : M B :=
  fun st =>
    match m st with
    | (Normal a, st') => k a st'
    | (Throw e, st') => (Throw e, st')
    end.

(** [try { m } catch (error) { h error }] *)
Definition try_catch {A} (m : M A) (h : Error -> M A) : M A :=
  fun st =>
    match m st with
    | (Normal a, st') => (Normal a, st')
    | (Throw e, st') => h e st'
    end.

Notation "x <- m ;; k" := (bind m (fun x => k))
  (at level 61, m at next level, right associativity).
Notation "m ;; k" := (bind m (fun _ => k))
  (at level 61, right associativity).

Definition emit (e : Effect) : M unit :=
  fun st => (Normal tt, mkState (processedArticles st) (effects st ++ [e])).

(** [await p], for a call that was answered with [r]. *)
Definition await {A} (r : Reply A) : M A :=
  match r with
  | Resolves a => ret a
  | Rejects e => throw e
  end.

Definition get_processedArticles : M (list value) :=
  fun st => (Normal (processedArticles st), st).

(** [processedArticles.add(v)] *)
Definition add_processedArticles (v : value) : M unit :=
  fun st =>
    (Normal tt,
     mkState (Set_add (processedArticles st) v)
             (effects st ++ [processedArticles_add v])).

(** A [TypeError]: a property read on [undefined] or [null]. *)
Definition TypeError (what : string) : Error := mkError (str what).

(** ** The program *)

(** Lines 16-25. *)
Definition RSS_FEEDS : list string :=
  [ "https://openai.com/blog/rss.xml";
    "https://www.deepmind.com/blog/rss";
    "https://www.anthropic.com/feed.xml";
    "https://ai.googleblog.com/feeds/posts/default";
    "https://ai.facebook.com/blog/rss/";
    "https://www.microsoft.com/en-us/research/feed/";
    "https://huggingface.co/blog/rss";
    "https://www.eleuther.ai/feed.xml" ].

Section Program.

Variable host : Host.
Variable env : Env.

(** [new Date(v)] for a string, [undefined] or [null]. *)
Definition new_Date (v : value) : option Z :=
  match v with
  | undefined => None
  | null => DateObj.TimeClip 0
  | str s =>
      match Date_parse host s with
      | Some t => DateObj.TimeClip t
      | None => None
      end
  end.

(** Lines 44-45: [yesterday = new Date(); yesterday.setDate(yesterday.getDate() - 1)]. *)
Definition yesterday_of (now : Z) : option Z :=
  DateObj.setDate (LocalTZA host) now (DateObj.getDate (LocalTZA host) now - 1).

(** The callback of [filter], lines 47-50. *)
Definition keepItem (yesterday : option Z) (seen : list value) (item : Item) : bool :=
  let pubDate := new_Date (item_pubDate item || item_isoDate item)%js in
  DateObj.gt pubDate yesterday && negb (Set_has seen (item_link item)).

(** The callback of [map], lines 50-57. *)
Definition toArticle (feed : Feed) (feedUrl : string) (item : Item) : Article :=
  {| title := item_title item;
     link := item_link item;
     content := (item_contentSnippet item || item_content item || str EmptyString)%js;
     source := (feed_title feed || str feedUrl)%js;
     pubDate := (item_pubDate item || item_isoDate item)%js;
     summary := (item_summary item || str EmptyString)%js |}.

(** The body of the [try] block for one feed, lines 40-59, up to the
    articles it pushes. *)
Definition fetchFeed (feedUrl : string) : M (list Article) :=
  emit (console_log ("Fetching RSS from: " +++ feedUrl)) ;;
  emit (call_parseURL feedUrl) ;;
  feed <- await (parseURL env feedUrl) ;;
  let yesterday := yesterday_of (Date_now env feedUrl) in
  seen <- get_processedArticles ;;
  let recentArticles :=
    map (toArticle feed feedUrl) (filter (keepItem yesterday seen) (feed_items feed)) in
  ret recentArticles.

(** The loop of lines 38-64 over the feeds, with [allArticles] so far. *)
Fixpoint fetchEach (feeds : list string) (allArticles : list Article)
  : M (list Article) :=
  match feeds with
  | [] => ret allArticles
  | feedUrl :: rest =>
      allArticles <-
        try_catch
          (recentArticles <- fetchFeed feedUrl ;;
           ret (allArticles ++ recentArticles))
          (fun error =>
             emit (console_error ("Error fetching RSS from " +++ feedUrl +++ ":")
                                 (message error)) ;;
             ret allArticles) ;;
      fetchEach rest allArticles
  end.

Definition fetchLatestArticlesFrom (feeds : list string) : M (list Article) :=
  fetchEach feeds [].

Definition fetchLatestArticles : M (list Article) :=
  fetchLatestArticlesFrom RSS_FEEDS.

(** [v.substring(0, 2000)]: a [TypeError] unless [v] is a string. *)
Definition substring_0_2000 (v : value) : M string :=
  match v with
  | str s => ret (String.substring 0 2000 s)
  | _ => throw (TypeError ("Cannot read properties of " +++ ToString v
                           +++ " (reading 'substring')"))
  end.

(** The template literal of lines 72-85. *)
Definition prompt_of (title_ source_ : value) (content_ : string) : string :=
  "
다음 AI 관련 블로그 글을 한국어로 요약해주세요. 핵심 내용과 주요 인사이트를 포함해주세요:

제목: " +++ ToString title_ +++ "
출처: " +++ ToString source_ +++ "
내용: " +++ content_ +++ "...

요약 형식:
1. 핵심 내용 (2-3문장)
2. 주요 기술/개념
3. 시사점 및 의미

요약은 300자 이내로 작성해주세요.
        ".

Definition request_of (prompt : string) : ChatRequest :=
  {| model := "gpt-4";
     messages := [("user", prompt)];
     max_tokens := 500;
     temperature_tenths := 7 |}.

(** [completion.choices[0].message.content] *)
Definition first_content (choices : list Choice) : M value :=
  match choices with
  | [] => throw (TypeError "Cannot read properties of undefined (reading 'message')")
  | c :: _ =>
      match choice_message c with
      | None => throw (TypeError "Cannot read properties of undefined (reading 'content')")
      | Some v => ret v
      end
  end.

(** The fallback of line 97. *)
Definition fallback (article : Article) : string :=
  "요약 생성 실패: " +++ ToString (title article).

(** Lines 70-99. *)
Definition summarizeArticle (article : Article) : M value :=
  try_catch
    (text <- substring_0_2000 (content article) ;;
     let prompt := prompt_of (title article) (source article) text in
     emit (call_chat_create (request_of prompt)) ;;
     completion <- await (chat_completions_create env (request_of prompt)) ;;
     first_content completion)
    (fun error =>
       emit (console_error_obj "Error summarizing article:" error) ;;
       ret (str (fallback article))).

(** The four blocks pushed for one article, lines 122-171. *)
Definition titleHeading (article : Article) : Block :=
  heading_3 [ mkRichText (title article) None true None ].

Definition sourceParagraph (article : Article) : Block :=
  paragraph
    [ mkRichText (str ("출처: " +++ ToString (source article) +++ " | ")) None false None;
      mkRichText (str "원문 링크") (Some (link article)) false (Some "blue") ].

(** [summaries[index]] *)
Definition at_index (summaries : list value) (index : nat) : value :=
  match nth_error summaries index with
  | Some v => v
  | None => undefined
  end.

Definition summaryParagraph (summaries : list value) (index : nat) : Block :=
  paragraph
    [ mkRichText (at_index summaries index || str "요약 없음")%js None false None ].

(** [articles.forEach((article, index) => { ... })], lines 121-172, from
    position [index] on, pushing onto [blocks]. *)
Fixpoint forEach_push (articles : list Article) (index : nat)
    (summaries : list value) (blocks : list Block) : list Block :=
  match articles with
  | [] => blocks
  | article :: rest =>
      let blocks := blocks ++ [titleHeading article] in
      let blocks := blocks ++ [sourceParagraph article] in
      let blocks := blocks ++ [summaryParagraph summaries index] in
      let blocks := blocks ++ [divider] in
      forEach_push rest (S index) summaries blocks
  end.

Definition titleBlock (today : string) : Block :=
  heading_2 [ mkRichText (str ("AI 뉴스 요약 - " +++ today)) None false None ].

(** Lines 102-184. *)
Definition addToNotionPage (articles : list Article) (summaries : list value)
  : M unit :=
  try_catch
    (let today := today_koKR env in
     let blocks := forEach_push articles 0 summaries [titleBlock today] in
     emit (call_blocks_append (NOTION_PAGE_ID host) blocks) ;;
     await (blocks_children_append env (NOTION_PAGE_ID host) blocks) ;;
     emit (console_log ("Successfully added "
                        +++ Number_toString (List.length articles)
                        +++ " articles to Notion")))
    (fun error => emit (console_error_obj "Error adding to Notion:" error)).

(** The loop of lines 202-212, with [summaries] so far. *)
Fixpoint summarizeEach (articles : list Article) (summaries : list value)
  : M (list value) :=
  match articles with
  | [] => ret summaries
  | article :: rest =>
      emit (console_log ("Summarizing: " +++ ToString (title article))) ;;
      summary <- summarizeArticle article ;;
      let summaries := summaries ++ [summary] in
      add_processedArticles (link article) ;;
      emit (wait_setTimeout 1000) ;;
      summarizeEach rest summaries
  end.

(** Lines 187-221. *)
Definition processAINews : M unit :=
  emit (console_log "Starting AI news processing...") ;;
  try_catch
    (articles <- fetchLatestArticles ;;
     emit (console_log ("Found " +++ Number_toString (List.length articles)
                        +++ " new articles")) ;;
     if Nat.eqb (List.length articles) 0 then
       emit (console_log "No new articles found")
     else
       summaries <- summarizeEach articles [] ;;
       addToNotionPage articles summaries ;;
       emit (console_log "AI news processing completed successfully"))
    (fun error => emit (console_error_obj "Error in processAINews:" error)).

(** The response of an Express handler: status and JSON body. *)
Record Response : Type := mkResponse {
  status : Z;
  success : bool;
  body_message : option string;
  body_error : option value }.

(** Lines 232-239, for the run it awaits. *)
Definition run_now_handler (run : M unit) : M Response :=
  try_catch
    (run ;;
     ret (mkResponse 200 true (Some "AI news processing completed") None))
    (fun error => ret (mkResponse 500 false None (Some (message error)))).

Definition app_get_run_now : M Response := run_now_handler processAINews.

(** Lines 247-252. *)
Definition app_get_processed (st : State) : nat * list value :=
  (List.length (processedArticles st), processedArticles st).

End Program.

(** ** What a run computes, in closed form

    The definitions below restate nothing of the program: they name the
    pieces its results are made of, and the lemmas after them prove that
    the monadic code computes exactly those. *)

(** [st] after the effects [es]. *)
Definition extend (st : State) (es : list Effect) : State :=
  mkState (processedArticles st) (effects st ++ es).

(** [processedArticles] after [add] of each of [vs], in order. *)
Definition Set_addAll (s : list value) (vs : list value) : list value :=
  fold_left Set_add vs s.

(** The requests to the language model among some effects, in order. *)
Fixpoint chat_calls (es : list Effect) : list ChatRequest :=
  match es with
  | [] => []
  | call_chat_create request :: es => request :: chat_calls es
  | _ :: es => chat_calls es
  end.

(** The block lists handed to the document service among some effects. *)
Fixpoint append_calls (es : list Effect) : list (list Block) :=
  match es with
  | [] => []
  | call_blocks_append _ children :: es => children :: append_calls es
  | _ :: es => append_calls es
  end.

(** The values added to [processedArticles] among some effects. *)
Fixpoint set_adds (es : list Effect) : list value :=
  match es with
  | [] => []
  | processedArticles_add v :: es => v :: set_adds es
  | _ :: es => set_adds es
  end.

(** [s] contains [t] as a substring. *)
Definition contains (s t : string) : Prop :=
  exists before after, s = before +++ t +++ after.

Section Closed.

Variable host : Host.
Variable env : Env.

(** The articles one feed adds to [allArticles], given the set as it
    stands. *)
Definition contribution (seen : list value) (feedUrl : string) : list Article :=
  match parseURL env feedUrl with
  | Resolves feed =>
      map (toArticle feed feedUrl)
          (filter (keepItem host (yesterday_of host (Date_now env feedUrl)) seen)
                  (feed_items feed))
  | Rejects _ => []
  end.

(** The effects of one turn of the fetch loop. *)
Definition fetchEffects (feedUrl : string) : list Effect :=
  [ console_log ("Fetching RSS from: " +++ feedUrl); call_parseURL feedUrl ]
  ++ match parseURL env feedUrl with
     | Resolves _ => []
     | Rejects e =>
         [ console_error ("Error fetching RSS from " +++ feedUrl +++ ":") (message e) ]
     end.

(** The request [summarizeArticle] sends for an article whose content is
    the string [s]. *)
Definition request_for (article : Article) (s : string) : ChatRequest :=
  request_of (prompt_of (title article) (source article) (String.substring 0 2000 s)).

(** What the [try] block of [summarizeArticle] ends in, and the effects
    of the whole call. *)
Definition upstream (article : Article) : completion value :=
  match content article with
  | str s =>
      match chat_completions_create env (request_for article s) with
      | Resolves [] =>
          Throw (TypeError "Cannot read properties of undefined (reading 'message')")
      | Resolves (c :: _) =>
          match choice_message c with
          | None =>
              Throw (TypeError "Cannot read properties of undefined (reading 'content')")
          | Some v => Normal v
          end
      | Rejects e => Throw e
      end
  | v => Throw (TypeError ("Cannot read properties of " +++ ToString v
                           +++ " (reading 'substring')"))
  end.

Definition summaryOf (article : Article) : value :=
  match upstream article with
  | Normal v => v
  | Throw _ => str (fallback article)
  end.

Definition summarizeEffects (article : Article) : list Effect :=
  match content article with
  | str s => [ call_chat_create (request_for article s) ]
  | _ => []
  end
  ++ match upstream article with
     | Normal _ => []
     | Throw e => [ console_error_obj "Error summarizing article:" e ]
     end.

(** The effects of one turn of the summarizing loop. *)
Definition articleEffects (article : Article) : list Effect :=
  [ console_log ("Summarizing: " +++ ToString (title article)) ]
  ++ summarizeEffects article
  ++ [ processedArticles_add (link article); wait_setTimeout 1000 ].

(** The four blocks of the article at position [index]. *)
Definition articleBlocks (summaries : list value) (index : nat) (article : Article)
  : list Block :=
  [ titleHeading article; sourceParagraph article;
    summaryParagraph summaries index; divider ].

Fixpoint blocksFrom (summaries : list value) (index : nat) (articles : list Article)
  : list Block :=
  match articles with
  | [] => []
  | article :: rest =>
      articleBlocks summaries index article ++ blocksFrom summaries (S index) rest
  end.

(** The block list of one publish step. *)
Definition pageBlocks (articles : list Article) (summaries : list value) : list Block :=
  titleBlock (today_koKR env) :: blocksFrom summaries 0 articles.

(** The effects of one publish step. *)
Definition publishEffects (articles : list Article) (summaries : list value)
  : list Effect :=
  call_blocks_append (NOTION_PAGE_ID host) (pageBlocks articles summaries)
  :: match blocks_children_append env (NOTION_PAGE_ID host)
                                  (pageBlocks articles summaries) with
     | Resolves _ =>
         [ console_log ("Successfully added "
                        +++ Number_toString (List.length articles)
                        +++ " articles to Notion") ]
     | Rejects e => [ console_error_obj "Error adding to Notion:" e ]
     end.

(** The articles a run fetches, given the set as it stands. *)
Definition fetched (seen : list value) : list Article :=
  flat_map (contribution seen) RSS_FEEDS.

(** The request sent for an article; [ToString] is the identity on the
    string content every fetched article has. *)
Definition request_to_summarize (a : Article) : ChatRequest :=
  request_for a (ToString (content a)).

(** The recency half of the filter, for the item of a feed in a world. *)
Definition recent (feedUrl : string) (item : Item) : bool :=
  DateObj.gt (new_Date host (item_pubDate item || item_isoDate item)%js)
             (yesterday_of host (Date_now env feedUrl)).

(** The effects of a whole run from a set [seen]. *)
Definition runEffects (seen : list value) : list Effect :=
  let articles := fetched seen in
  [ console_log "Starting AI news processing..." ]
  ++ flat_map fetchEffects RSS_FEEDS
  ++ [ console_log ("Found " +++ Number_toString (List.length articles)
                    +++ " new articles") ]
  ++ match articles with
     | [] => [ console_log "No new articles found" ]
     | _ :: _ =>
         flat_map articleEffects articles
         ++ publishEffects articles (map summaryOf articles)
         ++ [ console_log "AI news processing completed successfully" ]
     end.

End Closed.

(** ** Sample worlds

    Concrete hosts and environments on which the program is evaluated
    below.  The run is at 2024-03-10T17:00:00Z. *)

Module Sample.

Definition now : Z := 1710090000000.

(** A host [Date.parse] that knows these date strings. *)
Definition Date_parse (s : string) : option Z :=
  if String.eqb s "2024-03-10T09:00:00.000Z" then Some 1710061200000
  else if String.eqb s "2024-03-09T17:01:00.000Z" then Some 1710003660000
  else if String.eqb s "2024-03-09T16:59:00.000Z" then Some 1710003540000
  else None.

(** A host on UTC (equally: on any zone without clock changes). *)
Definition host_utc : Host :=
  mkHost Date_parse (fun _ _ => 0) (str "notion-page-id").

(** A host on US Eastern time, which set its clocks forward by one hour
    at 2024-03-10T07:00:00Z (02:00 local): five hours behind UTC before,
    four hours after; a local time in the skipped hour is read with the
    offset before the change. *)
Definition LocalTZA_eastern (t : Z) (isUTC : bool) : Z :=
  if isUTC
  then if t <? 1710054000000 then -18000000 else -14400000
  else if t <? 1710054000000 - 14400000 then -18000000 else -14400000.

Definition host_eastern : Host :=
  mkHost Date_parse LocalTZA_eastern (str "notion-page-id").

Definition item (title_ link_ : string) (pubDate_ : value) : Item :=
  {| item_title := str title_;
     item_link := str link_;
     item_contentSnippet := str "A short description.";
     item_content := undefined;
     item_pubDate := pubDate_;
     item_isoDate := pubDate_;
     item_summary := undefined |}.

(** Published 8 hours, 23h59m and 24h01m before the run. *)
Definition item_8h : Item :=
  item "Eight hours old" "https://example.org/8h" (str "2024-03-10T09:00:00.000Z").
Definition item_23h59 : Item :=
  item "Just inside" "https://example.org/23h59" (str "2024-03-09T17:01:00.000Z").
Definition item_24h01 : Item :=
  item "Just outside" "https://example.org/24h01" (str "2024-03-09T16:59:00.000Z").
(** Without a date, and with one the host cannot parse. *)
Definition item_undated : Item :=
  item "No date" "https://example.org/undated" undefined.
Definition item_misdated : Item :=
  item "Bad date" "https://example.org/misdated" (str "the day before yesterday").
(** The first item again, as a second feed carries it. *)
Definition item_8h_again : Item :=
  item "Eight hours old (syndicated)" "https://example.org/8h"
       (str "2024-03-10T09:00:00.000Z").

Definition feed_openai : Feed :=
  mkFeed (str "OpenAI Blog")
         [ item_8h; item_23h59; item_24h01; item_undated; item_misdated ].

Definition feed_huggingface : Feed := mkFeed undefined [ item_8h_again ].

Definition unreachable : Error := mkError (str "getaddrinfo ENOTFOUND").

(** Only the first feed answers. *)
Definition one_feed (feedUrl : string) : Reply Feed :=
  if String.eqb feedUrl "https://openai.com/blog/rss.xml" then Resolves feed_openai
  else Rejects unreachable.

(** The first and the seventh feed answer, and share an item. *)
Definition two_feeds (feedUrl : string) : Reply Feed :=
  if String.eqb feedUrl "https://openai.com/blog/rss.xml" then Resolves feed_openai
  else if String.eqb feedUrl "https://huggingface.co/blog/rss"
       then Resolves feed_huggingface
  else Rejects unreachable.

Definition chat_up (_ : ChatRequest) : Reply (list Choice) :=
  Resolves [ mkChoice (Some (str "1. ... 2. ... 3. ...")) ].

Definition chat_down (_ : ChatRequest) : Reply (list Choice) :=
  Rejects (mkError (str "429 You exceeded your current quota")).

Definition append_up (_ : value) (_ : list Block) : Reply unit := Resolves tt.

Definition append_down (_ : value) (_ : list Block) : Reply unit :=
  Rejects (mkError (str "Could not find block")).

Definition world (feeds : string -> Reply Feed)
    (chat : ChatRequest -> Reply (list Choice))
    (append : value -> list Block -> Reply unit) : Env :=
  {| parseURL := feeds;
     Date_now := fun _ => now;
     chat_completions_create := chat;
     today_koKR := "2024. 3. 11.";
     blocks_children_append := append |}.

Definition env_up : Env := world one_feed chat_up append_up.
Definition env_chat_down : Env := world one_feed chat_down append_up.
Definition env_append_down : Env := world one_feed chat_up append_down.
Definition env_shared_item : Env := world two_feeds chat_up append_up.

(** A process that has just started. *)
Definition fresh : State := mkState [] [].

(** The articles of three of the items. *)
Definition article_8h : Article :=
  toArticle feed_openai "https://openai.com/blog/rss.xml" item_8h.
Definition article_23h59 : Article :=
  toArticle feed_openai "https://openai.com/blog/rss.xml" item_23h59.
Definition article_8h_again : Article :=
  toArticle feed_huggingface "https://huggingface.co/blog/rss" item_8h_again.

End Sample.

(** * Properties *)

(** ** Values and the set *)

Lemma value_eqb_spec (a b : value) : reflect (a = b) (value_eqb a b).
Proof.
  destruct a as [| |s], b as [| |t]; simpl; try (constructor; congruence).
  destruct (String.eqb_spec s t); constructor; congruence.
Qed.

Lemma Set_has_In (s : list value) (v : value) : Set_has s v = true <-> In v s.
Proof.
  unfold Set_has. rewrite existsb_exists. split.
  - intros [x [Hx Hv]]. destruct (value_eqb_spec v x); congruence.
  - intros H. exists v. split; [assumption|].
    destruct (value_eqb_spec v v); congruence.
Qed.

Lemma Set_add_In (s : list value) (v w : value) :
  In w (Set_add s v) <-> In w s \/ w = v.
Proof.
  unfold Set_add. destruct (Set_has s v) eqn:E.
  - apply Set_has_In in E. split; [tauto|]. intros [H|H]; subst; assumption.
  - rewrite in_app_iff. simpl. intuition congruence.
Qed.

Lemma Set_addAll_In (vs : list value) : forall (s : list value) (w : value),
  In w (Set_addAll s vs) <-> In w s \/ In w vs.
Proof.
  unfold Set_addAll. induction vs as [|v vs IH]; intros s w; simpl.
  - tauto.
  - rewrite IH, Set_add_In. intuition congruence.
Qed.

Lemma Set_add_NoDup (s : list value) (v : value) : NoDup s -> NoDup (Set_add s v).
Proof.
  intros H. unfold Set_add. destruct (Set_has s v) eqn:E; [assumption|].
  apply NoDup_app; [assumption|repeat constructor; simpl; tauto|].
  intros x Hx [Hv|[]]. subst x. apply Set_has_In in Hx. congruence.
Qed.

(** ** The monad *)

Lemma extend_nil (st : State) : extend st [] = st.
Proof. destruct st. unfold extend. simpl. now rewrite app_nil_r. Qed.

Lemma extend_extend (st : State) (a b : list Effect) :
  extend (extend st a) b = extend st (a ++ b).
Proof. unfold extend. simpl. now rewrite app_assoc. Qed.

Lemma emit_run (e : Effect) (st : State) : emit e st = (Normal tt, extend st [e]).
Proof. reflexivity. Qed.

Lemma chat_calls_app (a b : list Effect) :
  chat_calls (a ++ b) = chat_calls a ++ chat_calls b.
Proof.
  induction a as [|e a IH]; simpl; [reflexivity|].
  destruct e; simpl; now rewrite ?IH.
Qed.

Lemma append_calls_app (a b : list Effect) :
  append_calls (a ++ b) = append_calls a ++ append_calls b.
Proof.
  induction a as [|e a IH]; simpl; [reflexivity|].
  destruct e; simpl; now rewrite ?IH.
Qed.

Lemma set_adds_app (a b : list Effect) :
  set_adds (a ++ b) = set_adds a ++ set_adds b.
Proof.
  induction a as [|e a IH]; simpl; [reflexivity|].
  destruct e; simpl; now rewrite ?IH.
Qed.

(** ** Each function, run *)

Ltac run := unfold bind, try_catch, ret, throw, await; simpl.
Ltac flatten := repeat (progress (rewrite <- ?app_assoc; simpl)).

Section Runs.

Variable host : Host.
Variable env : Env.

Lemma fetchFeed_run (feedUrl : string) (st : State) :
  fetchFeed host env feedUrl st =
  let st' := extend st [ console_log ("Fetching RSS from: " +++ feedUrl);
                         call_parseURL feedUrl ] in
  match parseURL env feedUrl with
  | Resolves _ => (Normal (contribution host env (processedArticles st) feedUrl), st')
  | Rejects e => (Throw e, st')
  end.
Proof.
  unfold fetchFeed, contribution, extend. run.
  destruct (parseURL env feedUrl); simpl; rewrite <- app_assoc; reflexivity.
Qed.

Lemma fetchEach_run (feeds : list string) : forall (allArticles : list Article) (st : State),
  fetchEach host env feeds allArticles st =
  (Normal (allArticles ++ flat_map (contribution host env (processedArticles st)) feeds),
   extend st (flat_map (fetchEffects env) feeds)).
Proof.
  induction feeds as [|feedUrl rest IH]; intros allArticles st; simpl.
  - now rewrite app_nil_r, extend_nil.
  - unfold bind at 1. unfold try_catch. unfold bind at 1.
    rewrite fetchFeed_run. cbv zeta.
    remember (contribution host env (processedArticles st) feedUrl) as c eqn:Hc.
    remember (fetchEffects env feedUrl) as f eqn:Hf.
    unfold contribution in Hc. unfold fetchEffects in Hf.
    destruct (parseURL env feedUrl) as [feed|e]; subst c f; run; rewrite IH;
      unfold extend; simpl; rewrite <- !app_assoc; reflexivity.
Qed.

Lemma fetchLatestArticles_run (st : State) :
  fetchLatestArticles host env st =
  (Normal (fetched host env (processedArticles st)),
   extend st (flat_map (fetchEffects env) RSS_FEEDS)).
Proof. unfold fetchLatestArticles, fetchLatestArticlesFrom. now rewrite fetchEach_run. Qed.

Lemma summarizeArticle_run (article : Article) (st : State) :
  summarizeArticle env article st =
  (Normal (summaryOf env article), extend st (summarizeEffects env article)).
Proof.
  unfold summarizeArticle, summaryOf, summarizeEffects, upstream, request_for.
  unfold substring_0_2000, first_content, extend. run.
  destruct (content article) as [| |s]; simpl; try reflexivity.
  destruct (chat_completions_create env _) as [[|c choices]|e]; simpl;
    rewrite <- ?app_assoc; try reflexivity.
  destruct (choice_message c); simpl; rewrite <- ?app_assoc; reflexivity.
Qed.

Lemma summarizeEach_run (articles : list Article) : forall (summaries : list value) (st : State),
  summarizeEach env articles summaries st =
  (Normal (summaries ++ map (summaryOf env) articles),
   mkState (Set_addAll (processedArticles st) (map link articles))
           (effects st ++ flat_map (articleEffects env) articles)).
Proof.
  induction articles as [|article rest IH]; intros summaries st; simpl.
  - rewrite !app_nil_r. now destruct st.
  - unfold bind at 1. rewrite emit_run.
    unfold bind at 1. rewrite summarizeArticle_run.
    unfold bind at 1. unfold add_processedArticles at 1.
    unfold bind at 1. rewrite emit_run.
    rewrite IH. unfold extend, articleEffects. flatten. reflexivity.
Qed.

Lemma forEach_push_run (summaries : list value) (articles : list Article) :
  forall (index : nat) (blocks : list Block),
  forEach_push articles index summaries blocks =
  blocks ++ blocksFrom summaries index articles.
Proof.
  induction articles as [|article rest IH]; intros index blocks; simpl.
  - now rewrite app_nil_r.
  - rewrite IH. flatten. reflexivity.
Qed.

Lemma addToNotionPage_run (articles : list Article) (summaries : list value) (st : State) :
  addToNotionPage host env articles summaries st =
  (Normal tt, extend st (publishEffects host env articles summaries)).
Proof.
  unfold addToNotionPage, publishEffects, pageBlocks. run.
  rewrite forEach_push_run. simpl.
  unfold extend.
  destruct (blocks_children_append env _ _); unfold emit; flatten; reflexivity.
Qed.


Lemma processAINews_run (st : State) :
  processAINews host env st =
  (Normal tt,
   mkState (Set_addAll (processedArticles st)
                       (map link (fetched host env (processedArticles st))))
           (effects st ++ runEffects host env (processedArticles st))).
Proof.
  unfold processAINews, runEffects.
  unfold bind at 1. rewrite emit_run. unfold try_catch.
  unfold bind at 1. rewrite fetchLatestArticles_run. simpl processedArticles.
  unfold bind at 1. rewrite emit_run.
  generalize (flat_map (fetchEffects env) RSS_FEEDS) as fe. intros fe.
  destruct (fetched host env (processedArticles st)) as [|a arts] eqn:E.
  - cbn [List.length Nat.eqb]. rewrite emit_run. unfold extend. flatten. reflexivity.
  - cbn [List.length Nat.eqb].
    unfold bind at 1. rewrite summarizeEach_run.
    unfold bind at 1. rewrite addToNotionPage_run. rewrite emit_run.
    unfold extend. cbn [processedArticles effects].
    rewrite <- !app_assoc. cbn [app]. reflexivity.
Qed.

End Runs.

(** ** The date the filter compares against *)

Module DateFacts.
Import DateObj.

Lemma MonthFromTime_range (t : Z) : 0 <= MonthFromTime t <= 11.
Proof.
  unfold MonthFromTime.
  repeat match goal with
         | |- context [if ?c then _ else _] => destruct c
         end; lia.
Qed.

(** One less than the day of the month, in the same month and year, is
    the day before: also on the first, where [date] becomes 0. *)
Lemma MakeDay_day_before (t : Z) :
  MakeDay (YearFromTime t) (MonthFromTime t) (DateFromTime t - 1) = Day t - 1.
Proof.
  pose proof (MonthFromTime_range t) as Hm.
  unfold MakeDay, DateFromTime, DayWithinYear, InLeapYear.
  rewrite (Z.div_small (MonthFromTime t) 12) by lia.
  rewrite (Z.mod_small (MonthFromTime t) 12) by lia.
  rewrite Z.add_0_r. lia.
Qed.

Lemma MakeDate_day_before (t : Z) :
  MakeDate (Day t - 1) (TimeWithinDay t) = t - msPerDay.
Proof.
  unfold MakeDate, Day, TimeWithinDay, msPerDay.
  pose proof (Z.div_mod t 86400000 ltac:(lia)). lia.
Qed.

(** 2024-03-10T17:00:00Z is the 10th of month 2 (March) of 2024; day 0 of
    March 2024 is the 29th of February; the epoch is 1970-01-01. *)
Example calendar_samples :
  (YearFromTime 1710090000000, MonthFromTime 1710090000000,
   DateFromTime 1710090000000) = (2024, 2, 10) /\
  MakeDay 2024 2 0 = Day 1709164800000 /\
  (YearFromTime 1709164800000, MonthFromTime 1709164800000,
   DateFromTime 1709164800000) = (2024, 1, 29) /\
  (YearFromTime 0, MonthFromTime 0, DateFromTime 0) = (1970, 0, 1) /\
  (YearFromTime (-1), MonthFromTime (-1), DateFromTime (-1)) = (1969, 11, 31).
Proof. repeat split; reflexivity. Qed.

(** [d.setDate(d.getDate() - 1)] moves [d] to the same local time of day
    on the day before. *)
Lemma setDate_day_before (tza : Z -> bool -> Z) (tv : Z) :
  setDate tza tv (getDate tza tv - 1) =
  TimeClip (UTC tza (LocalTime tza tv - msPerDay)).
Proof.
  unfold setDate, getDate. cbv zeta.
  now rewrite MakeDay_day_before, MakeDate_day_before.
Qed.

End DateFacts.

Section Yesterday.

Variable host : Host.

Lemma yesterday_of_local (now : Z) :
  yesterday_of host now =
  DateObj.TimeClip
    (DateObj.UTC (LocalTZA host)
                 (DateObj.LocalTime (LocalTZA host) now - DateObj.msPerDay)).
Proof. apply DateFacts.setDate_day_before. Qed.

(** In a zone whose offset never changes, that is 24 hours earlier. *)
Lemma yesterday_of_fixed_offset (offset now : Z) :
  (forall t isUTC, LocalTZA host t isUTC = offset) ->
  yesterday_of host now = DateObj.TimeClip (now - 86400000).
Proof.
  intros H. rewrite yesterday_of_local.
  unfold DateObj.UTC, DateObj.LocalTime, DateObj.msPerDay. rewrite !H.
  f_equal. lia.
Qed.

(** The date the filter reads is one of the item's two date properties. *)
Lemma selected_date (item : Item) :
  (item_pubDate item || item_isoDate item)%js = item_pubDate item \/
  (item_pubDate item || item_isoDate item)%js = item_isoDate item.
Proof. unfold JS.or. destruct (truthy (item_pubDate item)); auto. Qed.

Lemma keepItem_true (yesterday : option Z) (seen : list value) (item : Item) :
  keepItem host yesterday seen item = true <->
  (exists t y, new_Date host (item_pubDate item || item_isoDate item)%js = Some t
               /\ yesterday = Some y /\ y < t)
  /\ ~ In (item_link item) seen.
Proof.
  unfold keepItem. cbv zeta. rewrite andb_true_iff, negb_true_iff.
  rewrite <- Set_has_In.
  destruct (new_Date host _) as [t|], yesterday as [y|]; simpl.
  - rewrite Z.ltb_lt. split.
    + intros [H1 H2]. split; [exists t, y; auto | congruence].
    + intros [(t' & y' & Ht & Hy & Hlt) H2]. split.
      * congruence.
      * now destruct (Set_has seen (item_link item)).
  - split; [intros [? _]; discriminate | intros [(? & ? & _ & ? & _) _]; discriminate].
  - split; [intros [? _]; discriminate | intros [(? & ? & ? & _) _]; discriminate].
  - split; [intros [? _]; discriminate | intros [(? & ? & ? & _) _]; discriminate].
Qed.

End Yesterday.


(** * The claims *)

(** ** Fetching: isolation of feeds, recency, bad dates *)

Section Fetching.

Variable host : Host.
Variable env : Env.

Lemma contribution_rejected (seen : list value) (feedUrl : string) (e : Error) :
  parseURL env feedUrl = Rejects e -> contribution host env seen feedUrl = [].
Proof. intros H. unfold contribution. now rewrite H. Qed.

Lemma contribution_In (seen : list value) (feedUrl : string) (a : Article) :
  In a (contribution host env seen feedUrl) <->
  exists feed item,
    parseURL env feedUrl = Resolves feed /\ In item (feed_items feed) /\
    keepItem host (yesterday_of host (Date_now env feedUrl)) seen item = true /\
    a = toArticle feed feedUrl item.
Proof.
  unfold contribution. destruct (parseURL env feedUrl) as [feed|e].
  - rewrite in_map_iff. split.
    + intros (item & Ha & Hi). apply filter_In in Hi. exists feed, item. intuition.
    + intros (feed' & item & Hf & Hi & Hk & Ha). injection Hf as <-.
      exists item. split; [auto|]. apply filter_In. auto.
  - split; [intros [] | intros (? & ? & ? & _); discriminate].
Qed.

(** Every article the fetch step lets through carries a date the host
    can read. *)
Lemma contribution_dated (seen : list value) (feedUrl : string) (a : Article) :
  In a (contribution host env seen feedUrl) ->
  exists t, new_Date host (pubDate a) = Some t.
Proof.
  intros H. apply contribution_In in H.
  destruct H as (feed & item & _ & _ & Hk & ->).
  apply keepItem_true in Hk. destruct Hk as [(t & _ & Ht & _) _].
  exists t. exact Ht.
Qed.

(** C4. Whatever the configured feed URLs, a feed whose fetch or parse
    fails adds nothing and stops nothing: the fetch step over the whole
    list returns (it does not throw), and returns the very articles it
    returns over the list without the failing feed; among them is the
    article of every item that passes the filter in a feed that did
    parse; the failure itself is written to the console. *)
Theorem feed_failure_is_isolated
    (before after : list string) (feedUrl : string) (e : Error) (st : State) :
  parseURL env feedUrl = Rejects e ->
  exists articles st1 st2,
    fetchLatestArticlesFrom host env (before ++ feedUrl :: after) st
      = (Normal articles, st1) /\
    fetchLatestArticlesFrom host env (before ++ after) st = (Normal articles, st2) /\
    In (console_error ("Error fetching RSS from " +++ feedUrl +++ ":") (message e))
       (effects st1) /\
    forall url feed item,
      In url (before ++ after) ->
      parseURL env url = Resolves feed ->
      In item (feed_items feed) ->
      keepItem host (yesterday_of host (Date_now env url)) (processedArticles st) item
        = true ->
      In (toArticle feed url item) articles.
Proof.
  intros Hfail. unfold fetchLatestArticlesFrom. rewrite !fetchEach_run.
  do 3 eexists. split; [reflexivity|]. split; [|split].
  - simpl. rewrite !flat_map_app. simpl.
    now rewrite (contribution_rejected _ _ _ Hfail).
  - unfold extend. simpl. rewrite flat_map_app. simpl.
    unfold fetchEffects at 2. rewrite Hfail.
    rewrite !in_app_iff. right. right. simpl. auto.
  - intros url feed item Hurl Hfeed Hitem Hkeep. simpl.
    rewrite flat_map_app. simpl.
    rewrite (contribution_rejected _ _ _ Hfail). simpl.
    rewrite <- flat_map_app. apply in_flat_map. exists url. split; [assumption|].
    apply contribution_In. exists feed, item. auto.
Qed.

(** C6. An item whose date properties are both absent or unreadable
    never passes the filter, whatever the threshold and the set; the
    fetch step returns without throwing, every article it returns has a
    readable date, and none of them is the article of such an item. *)
Theorem undated_item_is_not_recent (item : Item) (feeds : list string) (st : State) :
  new_Date host (item_pubDate item) = None ->
  new_Date host (item_isoDate item) = None ->
  (forall yesterday seen, keepItem host yesterday seen item = false) /\
  exists articles st',
    fetchLatestArticlesFrom host env feeds st = (Normal articles, st') /\
    (forall a, In a articles -> exists t, new_Date host (pubDate a) = Some t) /\
    (forall feed feedUrl, ~ In (toArticle feed feedUrl item) articles).
Proof.
  intros Hpub Hiso.
  assert (Hsel : new_Date host (item_pubDate item || item_isoDate item)%js = None).
  { destruct (selected_date item) as [-> | ->]; assumption. }
  split.
  - intros yesterday seen. unfold keepItem. cbv zeta. now rewrite Hsel.
  - unfold fetchLatestArticlesFrom. rewrite fetchEach_run.
    do 2 eexists. split; [reflexivity|]. simpl.
    assert (Hdated : forall a,
               In a (flat_map (contribution host env (processedArticles st)) feeds) ->
               exists t, new_Date host (pubDate a) = Some t).
    { intros a Ha. apply in_flat_map in Ha. destruct Ha as (url & _ & Ha).
      eapply contribution_dated; eassumption. }
    split; [exact Hdated|].
    intros feed feedUrl Hin. apply Hdated in Hin. destruct Hin as [t Ht].
    simpl in Ht. congruence.
Qed.

End Fetching.

(** Witness for C4: the second configured feed is unreachable. *)
Lemma feed_failure_is_isolated_witness :
  exists articles st1 st2,
    fetchLatestArticlesFrom Sample.host_utc Sample.env_up
      ([ "https://openai.com/blog/rss.xml" ]
       ++ "https://www.deepmind.com/blog/rss" :: [ "https://huggingface.co/blog/rss" ])
      Sample.fresh = (Normal articles, st1) /\
    fetchLatestArticlesFrom Sample.host_utc Sample.env_up
      ([ "https://openai.com/blog/rss.xml" ] ++ [ "https://huggingface.co/blog/rss" ])
      Sample.fresh = (Normal articles, st2) /\
    In (console_error
          ("Error fetching RSS from " +++ "https://www.deepmind.com/blog/rss" +++ ":")
          (message Sample.unreachable))
       (effects st1) /\
    forall url feed item,
      In url ([ "https://openai.com/blog/rss.xml" ] ++ [ "https://huggingface.co/blog/rss" ]) ->
      parseURL Sample.env_up url = Resolves feed ->
      In item (feed_items feed) ->
      keepItem Sample.host_utc
               (yesterday_of Sample.host_utc (Date_now Sample.env_up url))
               (processedArticles Sample.fresh) item = true ->
      In (toArticle feed url item) articles.
Proof.
  apply (feed_failure_is_isolated Sample.host_utc Sample.env_up
           [ "https://openai.com/blog/rss.xml" ] [ "https://huggingface.co/blog/rss" ]
           "https://www.deepmind.com/blog/rss" Sample.unreachable Sample.fresh).
  reflexivity.
Defined.

(** Witness for C6: an item without a date, and the feeds as configured. *)
Lemma undated_item_is_not_recent_witness :
  (forall yesterday seen,
      keepItem Sample.host_utc yesterday seen Sample.item_undated = false) /\
  exists articles st',
    fetchLatestArticlesFrom Sample.host_utc Sample.env_up RSS_FEEDS Sample.fresh
      = (Normal articles, st') /\
    (forall a, In a articles -> exists t, new_Date Sample.host_utc (pubDate a) = Some t) /\
    (forall feed feedUrl, ~ In (toArticle feed feedUrl Sample.item_undated) articles).
Proof.
  apply (undated_item_is_not_recent Sample.host_utc Sample.env_up
           Sample.item_undated RSS_FEEDS Sample.fresh); reflexivity.
Defined.

(** On a host whose zone keeps one offset, the threshold is 24 hours
    before the clock reading, and a dated item is recent exactly when it
    was published strictly after it. *)
Lemma recent_iff_fixed_offset (host : Host) (offset now t : Z) :
  (forall u isUTC, LocalTZA host u isUTC = offset) ->
  Z.abs (now - 86400000) <= 8640000000000000 ->
  DateObj.gt (Some t) (yesterday_of host now) = true <-> now - 86400000 < t.
Proof.
  intros Hzone Hrange. rewrite (yesterday_of_fixed_offset host offset now Hzone).
  unfold DateObj.TimeClip.
  destruct (Z.leb_spec (Z.abs (now - 86400000)) 8640000000000000); [|lia].
  simpl. apply Z.ltb_lt.
Qed.

(** C5, on the code.  On a UTC host the filter keeps the item published
    23h59m before the run and drops the one published 24h01m before it.
    On a host in a zone that set its clocks forward that morning,
    [setDate(getDate() - 1)] lands only 23 hours back, and the item
    published 23h59m before the run, which is after [now - 24h], is
    dropped: the fetch step returns the eight-hour-old article alone. *)
Theorem recency_window_at_clock_change :
  keepItem Sample.host_utc (yesterday_of Sample.host_utc Sample.now) []
           Sample.item_23h59 = true /\
  keepItem Sample.host_utc (yesterday_of Sample.host_utc Sample.now) []
           Sample.item_24h01 = false /\
  yesterday_of Sample.host_eastern Sample.now = Some (Sample.now - 23 * 3600000) /\
  new_Date Sample.host_eastern
           (item_pubDate Sample.item_23h59 || item_isoDate Sample.item_23h59)%js
    = Some (Sample.now - (23 * 60 + 59) * 60000) /\
  Sample.now - 24 * 3600000 < Sample.now - (23 * 60 + 59) * 60000 /\
  keepItem Sample.host_eastern (yesterday_of Sample.host_eastern Sample.now) []
           Sample.item_23h59 = false /\
  fst (fetchLatestArticles Sample.host_eastern Sample.env_up Sample.fresh)
    = Normal [ toArticle Sample.feed_openai "https://openai.com/blog/rss.xml"
                         Sample.item_8h ].
Proof. repeat split; vm_compute; reflexivity. Qed.

(** ** Publishing: the layout of the page *)

Lemma append_empty_r (s : string) : s +++ EmptyString = s.
Proof.
  induction s as [|c s IH]; [reflexivity|].
  change (String c s +++ EmptyString) with (String c (s +++ EmptyString)).
  now rewrite IH.
Qed.

Lemma fallback_contains_title (article : Article) :
  contains (fallback article) (ToString (title article)).
Proof.
  exists "요약 생성 실패: ", EmptyString. unfold fallback.
  now rewrite append_empty_r.
Qed.

Lemma fallback_truthy (article : Article) : truthy (str (fallback article)) = true.
Proof. reflexivity. Qed.

Section Layout.

Variable summaries : list value.

Lemma blocksFrom_length (articles : list Article) : forall index,
  List.length (blocksFrom summaries index articles) = (4 * List.length articles)%nat.
Proof.
  induction articles as [|a rest IH]; intros index; simpl; [reflexivity|].
  rewrite IH. lia.
Qed.

(** The four blocks of the article at position [i] sit at offsets
    [4 * i .. 4 * i + 3]. *)
Lemma blocksFrom_nth (articles : list Article) : forall (index i : nat) (a : Article),
  nth_error articles i = Some a ->
  nth_error (blocksFrom summaries index articles) (4 * i) = Some (titleHeading a) /\
  nth_error (blocksFrom summaries index articles) (1 + 4 * i) = Some (sourceParagraph a) /\
  nth_error (blocksFrom summaries index articles) (2 + 4 * i)
    = Some (summaryParagraph summaries (index + i)) /\
  nth_error (blocksFrom summaries index articles) (3 + 4 * i) = Some divider.
Proof.
  induction articles as [|b rest IH]; intros index i a Hi.
  - destruct i; discriminate.
  - destruct i as [|i].
    + injection Hi as <-. simpl. rewrite Nat.add_0_r. auto.
    + simpl in Hi. destruct (IH (S index) i a Hi) as (H0 & H1 & H2 & H3).
      replace (4 * S i)%nat with (4 + 4 * i)%nat by lia.
      replace (1 + (4 + 4 * i))%nat with (4 + (1 + 4 * i))%nat by lia.
      replace (2 + (4 + 4 * i))%nat with (4 + (2 + 4 * i))%nat by lia.
      replace (3 + (4 + 4 * i))%nat with (4 + (3 + 4 * i))%nat by lia.
      replace (index + S i)%nat with (S index + i)%nat by lia.
      simpl. simpl in H1, H2, H3. auto.
Qed.

End Layout.

Section Publishing.

Variable host : Host.
Variable env : Env.

(** C10. For every batch, the publish step returns after one call to
    the document service, and the block list of that call is: first one
    heading labelled with the date of the run, then for the article at
    each position [i], in order, four blocks - a heading with the title
    in bold, a paragraph with the source and a link to the article, a
    paragraph with the summary at position [i] (the placeholder
    [요약 없음] when that summary is missing, [null] or empty), and a
    divider - and nothing else. *)
Theorem publish_layout (articles : list Article) (summaries : list value) (st : State) :
  exists blocks st',
    addToNotionPage host env articles summaries st = (Normal tt, st') /\
    append_calls (effects st') = append_calls (effects st) ++ [ blocks ] /\
    List.length blocks = (1 + 4 * List.length articles)%nat /\
    nth_error blocks 0
      = Some (heading_2
                [ mkRichText (str ("AI 뉴스 요약 - " +++ today_koKR env)) None false None ]) /\
    forall (i : nat) (a : Article),
      nth_error articles i = Some a ->
      nth_error blocks (1 + 4 * i)
        = Some (heading_3 [ mkRichText (title a) None true None ]) /\
      nth_error blocks (2 + 4 * i)
        = Some (paragraph
                  [ mkRichText (str ("출처: " +++ ToString (source a) +++ " | "))
                               None false None;
                    mkRichText (str "원문 링크") (Some (link a)) false (Some "blue") ]) /\
      nth_error blocks (3 + 4 * i)
        = Some (paragraph
                  [ mkRichText (if truthy (at_index summaries i)
                                then at_index summaries i
                                else str "요약 없음")
                               None false None ]) /\
      nth_error blocks (4 + 4 * i) = Some divider.
Proof.
  exists (pageBlocks env articles summaries). eexists.
  rewrite addToNotionPage_run. split; [reflexivity|].
  unfold extend, publishEffects, pageBlocks. cbn [effects].
  split; [|split; [|split]].
  - rewrite append_calls_app. f_equal. cbn [append_calls].
    destruct (blocks_children_append env _ _); reflexivity.
  - cbn [List.length]. now rewrite blocksFrom_length.
  - reflexivity.
  - intros i a Hi.
    destruct (blocksFrom_nth summaries articles 0 i a Hi) as (H0 & H1 & H2 & H3).
    repeat split.
    + exact H0.
    + exact H1.
    + exact H2.
    + exact H3.
Qed.

End Publishing.

(** ** The calls and writes among the effects of a run *)

Section Calls.

Variable host : Host.
Variable env : Env.


Lemma or_str (v : value) (s : string) : exists s', (v || str s)%js = str s'.
Proof.
  unfold JS.or. destruct v as [| |t]; simpl; eauto.
  destruct t; simpl; eauto.
Qed.

Lemma toArticle_content (feed : Feed) (feedUrl : string) (item : Item) :
  exists s, content (toArticle feed feedUrl item) = str s.
Proof. simpl. apply or_str. Qed.

Lemma fetched_content (seen : list value) (a : Article) :
  In a (fetched host env seen) -> exists s, content a = str s.
Proof.
  unfold fetched. intros H. apply in_flat_map in H. destruct H as (url & _ & H).
  apply contribution_In in H. destruct H as (feed & item & _ & _ & _ & ->).
  apply toArticle_content.
Qed.

Lemma fetchEffects_calls (feeds : list string) :
  chat_calls (flat_map (fetchEffects env) feeds) = [] /\
  append_calls (flat_map (fetchEffects env) feeds) = [] /\
  set_adds (flat_map (fetchEffects env) feeds) = [].
Proof.
  induction feeds as [|url rest (IH1 & IH2 & IH3)]; simpl; [auto|].
  rewrite chat_calls_app, append_calls_app, set_adds_app, IH1, IH2, IH3.
  destruct (parseURL env url); simpl; auto.
Qed.

Lemma summarizeEffects_calls (a : Article) :
  (forall s, content a = str s ->
             chat_calls (summarizeEffects env a) = [ request_to_summarize a ]) /\
  append_calls (summarizeEffects env a) = [] /\
  set_adds (summarizeEffects env a) = [].
Proof.
  unfold summarizeEffects, request_to_summarize.
  rewrite chat_calls_app, append_calls_app, set_adds_app.
  destruct (upstream env a); destruct (content a); simpl; repeat split;
    try reflexivity; intros s0 H; try discriminate; injection H as <-; reflexivity.
Qed.

Lemma articleEffects_calls (articles : list Article) :
  (forall a, In a articles -> exists s, content a = str s) ->
  chat_calls (flat_map (articleEffects env) articles)
    = map request_to_summarize articles /\
  append_calls (flat_map (articleEffects env) articles) = [] /\
  set_adds (flat_map (articleEffects env) articles) = map link articles.
Proof.
  induction articles as [|a rest IH]; intros Hstr; simpl; [auto|].
  destruct IH as (IH1 & IH2 & IH3); [intros; apply Hstr; simpl; auto|].
  destruct (Hstr a (or_introl eq_refl)) as [s Hs].
  destruct (summarizeEffects_calls a) as (H1 & H2 & H3).
  rewrite !chat_calls_app, !append_calls_app, !set_adds_app.
  rewrite (H1 s Hs), H2, H3, IH1, IH2, IH3. simpl. auto.
Qed.

Lemma publishEffects_calls (articles : list Article) (summaries : list value) :
  chat_calls (publishEffects host env articles summaries) = [] /\
  append_calls (publishEffects host env articles summaries)
    = [ pageBlocks env articles summaries ] /\
  set_adds (publishEffects host env articles summaries) = [].
Proof.
  unfold publishEffects. simpl.
  destruct (blocks_children_append env _ _); simpl; auto.
Qed.

(** The calls of a whole run: one request per fetched article, in
    order; one write to the set per fetched article, in order; one
    append, unless nothing was fetched. *)
Lemma runEffects_calls (seen : list value) :
  chat_calls (runEffects host env seen)
    = map request_to_summarize (fetched host env seen) /\
  set_adds (runEffects host env seen) = map link (fetched host env seen) /\
  append_calls (runEffects host env seen)
    = match fetched host env seen with
      | [] => []
      | _ :: _ =>
          [ pageBlocks env (fetched host env seen)
                       (map (summaryOf env) (fetched host env seen)) ]
      end.
Proof.
  unfold runEffects. cbv zeta.
  pose proof (fetched_content seen) as Hstr.
  destruct (fetchEffects_calls RSS_FEEDS) as (F1 & F2 & F3).
  remember (flat_map (fetchEffects env) RSS_FEEDS) as fe eqn:Hfe. clear Hfe.
  destruct (fetched host env seen) as [|a arts] eqn:E.
  - simpl. rewrite !chat_calls_app, !append_calls_app, !set_adds_app, F1, F2, F3.
    simpl. auto.
  - destruct (articleEffects_calls (a :: arts) Hstr) as (A1 & A2 & A3).
    destruct (publishEffects_calls (a :: arts) (map (summaryOf env) (a :: arts)))
      as (P1 & P2 & P3).
    repeat (progress (cbn [app chat_calls append_calls set_adds];
                      rewrite ?chat_calls_app, ?append_calls_app, ?set_adds_app)).
    rewrite F1, F2, F3, A1, A2, A3, P1, P2, P3. simpl. rewrite !app_nil_r. auto.
Qed.

End Calls.

(** ** Summarizing: the fallback, the set, the number of requests *)

Section Summarizing.

Variable host : Host.
Variable env : Env.

Lemma summaryOf_when_down (a : Article) :
  (forall request, exists e, chat_completions_create env request = Rejects e) ->
  summaryOf env a = str (fallback a).
Proof.
  intros Hdown. unfold summaryOf, upstream.
  destruct (content a) as [| |s]; try reflexivity.
  destruct (Hdown (request_for a s)) as [e ->]. reflexivity.
Qed.

Lemma at_index_map (f : Article -> value) (articles : list Article) (i : nat) (a : Article) :
  nth_error articles i = Some a -> at_index (map f articles) i = f a.
Proof. intros H. unfold at_index. now rewrite nth_error_map, H. Qed.

(** C3. [summarizeArticle] returns for every article and never throws.
    When the call to the language model is rejected, or its reply has no
    choice or no message to read, it logs the error and returns the fallback
    [요약 생성 실패: <title>], which contains the article's title.  When
    the model rejects every request, the run still returns normally, the
    one append it makes carries all the blocks, and the summary paragraph
    of each fetched article holds that article's fallback. *)
Theorem fallback_guarantee (st : State) :
  (forall article st0, exists v st1, summarizeArticle env article st0 = (Normal v, st1)) /\
  (forall article st0 s e,
      content article = str s ->
      chat_completions_create env (request_for article s) = Rejects e ->
      summarizeArticle env article st0
        = (Normal (str ("요약 생성 실패: " +++ ToString (title article))),
           extend st0 [ call_chat_create (request_for article s);
                        console_error_obj "Error summarizing article:" e ])) /\
  (forall article st0 s,
      content article = str s ->
      chat_completions_create env (request_for article s) = Resolves [] \/
      (exists c rest,
          chat_completions_create env (request_for article s) = Resolves (c :: rest) /\
          choice_message c = None) ->
      fst (summarizeArticle env article st0)
        = Normal (str ("요약 생성 실패: " +++ ToString (title article)))) /\
  (forall article,
      contains ("요약 생성 실패: " +++ ToString (title article))
               (ToString (title article))) /\
  ((forall request, exists e, chat_completions_create env request = Rejects e) ->
   exists articles st' new,
     fst (fetchLatestArticles host env st) = Normal articles /\
     processAINews host env st = (Normal tt, st') /\
     effects st' = effects st ++ new /\
     (articles <> [] ->
      exists blocks,
        append_calls new = [ blocks ] /\
        forall i a,
          nth_error articles i = Some a ->
          nth_error blocks (3 + 4 * i)
            = Some (paragraph
                      [ mkRichText (str ("요약 생성 실패: " +++ ToString (title a)))
                                   None false None ]))).
Proof.
  split; [|split; [|split; [|split]]].
  - intros article st0. rewrite summarizeArticle_run. eauto.
  - intros article st0 s e Hs He. rewrite summarizeArticle_run.
    unfold summaryOf, summarizeEffects, upstream. now rewrite Hs, He.
  - intros article st0 s Hs He. rewrite summarizeArticle_run.
    unfold summaryOf, upstream. rewrite Hs.
    destruct He as [-> | (c & rest & -> & Hc)]; [reflexivity|].
    now rewrite Hc.
  - intros article. apply fallback_contains_title.
  - intros Hdown. rewrite fetchLatestArticles_run, processAINews_run.
    do 3 eexists. split; [reflexivity|]. split; [reflexivity|].
    split; [reflexivity|].
    intros Hne. destruct (runEffects_calls host env (processedArticles st)) as (_ & _ & Ha).
    remember (fetched host env (processedArticles st)) as articles eqn:E.
    destruct articles as [|a0 rest]; [congruence|].
    eexists. split; [exact Ha|].
    intros i a Hi. unfold pageBlocks.
    destruct (blocksFrom_nth (map (summaryOf env) (a0 :: rest)) (a0 :: rest) 0 i a Hi)
      as (_ & _ & H2 & _).
    change (3 + 4 * i)%nat with (S (2 + 4 * i)). cbn [nth_error].
    rewrite H2. unfold summaryParagraph. cbn [Nat.add].
    rewrite (at_index_map (summaryOf env) (a0 :: rest) i a Hi).
    rewrite (summaryOf_when_down a Hdown). reflexivity.
Qed.

End Summarizing.

(** Witness for C3: the model rejects every request; one feed answers. *)
Lemma fallback_guarantee_witness :
  exists articles st' new,
    fst (fetchLatestArticles Sample.host_utc Sample.env_chat_down Sample.fresh)
      = Normal articles /\
    processAINews Sample.host_utc Sample.env_chat_down Sample.fresh = (Normal tt, st') /\
    effects st' = effects Sample.fresh ++ new /\
    (articles <> [] ->
     exists blocks,
       append_calls new = [ blocks ] /\
       forall i a,
         nth_error articles i = Some a ->
         nth_error blocks (3 + 4 * i)
           = Some (paragraph
                     [ mkRichText (str ("요약 생성 실패: " +++ ToString (title a)))
                                  None false None ])).
Proof.
  apply (proj2 (proj2 (proj2 (proj2
           (fallback_guarantee Sample.host_utc Sample.env_chat_down Sample.fresh))))).
  intros request. exists (mkError (str "429 You exceeded your current quota")).
  reflexivity.
Defined.

Lemma filter_link_NoDup (l : value) (articles : list Article) :
  NoDup (map link articles) ->
  (List.length (filter (fun a => value_eqb (link a) l) articles) <= 1)%nat.
Proof.
  induction articles as [|a rest IH]; intros Hnd; simpl; [lia|].
  inversion Hnd as [|x xs Hnotin Hrest]; subst.
  destruct (value_eqb_spec (link a) l) as [Heq|Hne]; [|auto].
  simpl. replace (filter (fun a0 => value_eqb (link a0) l) rest) with (@nil Article).
  - simpl. lia.
  - symmetry. clear IH Hnd Hrest. induction rest as [|b rest IH]; [reflexivity|].
    simpl in *. destruct (value_eqb_spec (link b) l) as [Hb|Hb].
    + exfalso. apply Hnotin. left. congruence.
    + apply IH. tauto.
Qed.

Section Marking.

Variable host : Host.
Variable env : Env.

(** C7. For the article at any position of the fetched batch, the
    effects of the run split around the write of its link to
    [processedArticles]: before it come the requests and the writes of
    the articles ahead of it and no append; then the effects of
    [summarizeArticle] on this article, which returns whatever the model
    does (its one request, and the error line when the summary fell
    back); then, at once, the write of its link; only after that the
    requests and writes of the articles behind it and the single append.
    When the run ends every fetched link is in the set, and the publish
    step on its own leaves the set as it found it. *)
Theorem link_marked_after_summary
    (st : State) (before : list Article) (a : Article) (after : list Article) :
  fst (fetchLatestArticles host env st) = Normal (before ++ a :: after) ->
  exists st' prefix attempt suffix blocks,
    processAINews host env st = (Normal tt, st') /\
    effects st'
      = effects st ++ prefix ++ attempt ++ processedArticles_add (link a) :: suffix /\
    chat_calls prefix = map request_to_summarize before /\
    set_adds prefix = map link before /\
    append_calls prefix = [] /\
    (forall st0, exists v,
        summarizeArticle env a st0 = (Normal v, extend st0 attempt)) /\
    chat_calls attempt = [ request_to_summarize a ] /\
    set_adds attempt = [] /\
    append_calls attempt = [] /\
    chat_calls suffix = map request_to_summarize after /\
    set_adds suffix = map link after /\
    append_calls suffix = [ blocks ] /\
    (forall b, In b (before ++ a :: after) ->
               Set_has (processedArticles st') (link b) = true) /\
    (forall articles summaries st0,
        processedArticles (snd (addToNotionPage host env articles summaries st0))
          = processedArticles st0 /\
        set_adds (effects (snd (addToNotionPage host env articles summaries st0)))
          = set_adds (effects st0)).
Proof.
  rewrite fetchLatestArticles_run. cbn [fst]. intros Hfetch. injection Hfetch as Hfetch.
  rewrite processAINews_run.
  pose proof (fetched_content host env (processedArticles st)) as Hstr.
  unfold runEffects. cbv zeta. rewrite Hfetch in *.
  destruct (fetchEffects_calls env RSS_FEEDS) as (F1 & F2 & F3).
  remember (flat_map (fetchEffects env) RSS_FEEDS) as fe eqn:Hfe. clear Hfe.
  destruct (articleEffects_calls env before) as (B1 & B2 & B3).
  { intros b Hb. apply Hstr, in_app_iff. auto. }
  destruct (articleEffects_calls env after) as (A1 & A2 & A3).
  { intros b Hb. apply Hstr, in_app_iff. simpl. auto. }
  destruct (Hstr a) as [s Hs]; [apply in_app_iff; simpl; auto|].
  destruct (summarizeEffects_calls env a) as (S1 & S2 & S3).
  specialize (S1 s Hs).
  destruct (publishEffects_calls host env (before ++ a :: after)
              (map (summaryOf env) (before ++ a :: after))) as (P1 & P2 & P3).
  exists (mkState (Set_addAll (processedArticles st) (map link (before ++ a :: after)))
                  (effects st ++
                   [ console_log "Starting AI news processing..." ] ++ fe ++
                   [ console_log ("Found "
                                  +++ Number_toString (List.length (before ++ a :: after))
                                  +++ " new articles") ] ++
                   flat_map (articleEffects env) (before ++ a :: after) ++
                   publishEffects host env (before ++ a :: after)
                     (map (summaryOf env) (before ++ a :: after)) ++
                   [ console_log "AI news processing completed successfully" ])).
  exists ([ console_log "Starting AI news processing..." ] ++ fe ++
          [ console_log ("Found "
                         +++ Number_toString (List.length (before ++ a :: after))
                         +++ " new articles") ] ++
          flat_map (articleEffects env) before ++
          [ console_log ("Summarizing: " +++ ToString (title a)) ]).
  exists (summarizeEffects env a).
  exists ([ wait_setTimeout 1000 ] ++ flat_map (articleEffects env) after ++
          publishEffects host env (before ++ a :: after)
            (map (summaryOf env) (before ++ a :: after)) ++
          [ console_log "AI news processing completed successfully" ]).
  exists (pageBlocks env (before ++ a :: after)
                     (map (summaryOf env) (before ++ a :: after))).
  split.
  { destruct (before ++ a :: after) eqn:E; [destruct before; discriminate|].
    reflexivity. }
  split.
  { cbn [effects]. rewrite flat_map_app. cbn [flat_map]. unfold articleEffects at 2.
    rewrite <- !app_assoc. reflexivity. }
  repeat (progress (cbn [app chat_calls append_calls set_adds];
                    rewrite ?chat_calls_app, ?append_calls_app, ?set_adds_app)).
  rewrite F1, F2, F3, B1, B2, B3, A1, A2, A3, S1, S2, S3, P1, P2, P3.
  cbn [app]. rewrite !app_nil_r.
  do 3 (split; [reflexivity|]).
  split; [intros st0; rewrite summarizeArticle_run; eauto|].
  repeat (split; [reflexivity|]).
  split.
  - intros b Hb. cbn [processedArticles]. apply Set_has_In, Set_addAll_In.
    right. now apply in_map.
  - intros articles summaries st0. rewrite addToNotionPage_run.
    cbn [snd extend processedArticles effects]. split; [reflexivity|].
    rewrite set_adds_app.
    destruct (publishEffects_calls host env articles summaries) as (_ & _ & ->).
    now rewrite app_nil_r.
Qed.

(** C9, as the code has it. A run sends exactly one request per fetched
    article record, in fetch order, and nothing else to the model; so a
    link is requested once when the fetched links are pairwise distinct,
    and once per record that carries it otherwise. *)
Theorem one_request_per_fetched_article (st : State) :
  exists articles st' new,
    fst (fetchLatestArticles host env st) = Normal articles /\
    processAINews host env st = (Normal tt, st') /\
    effects st' = effects st ++ new /\
    chat_calls new = map request_to_summarize articles /\
    (NoDup (map link articles) ->
     forall l,
       (List.length (filter (fun a => value_eqb (link a) l) articles) <= 1)%nat).
Proof.
  rewrite fetchLatestArticles_run, processAINews_run.
  do 3 eexists. split; [reflexivity|]. split; [reflexivity|].
  split; [reflexivity|]. split.
  - apply runEffects_calls.
  - intros Hnd l. now apply filter_link_NoDup.
Qed.

End Marking.

(** Witness for C7: the second of the two articles the first feed yields. *)
Lemma link_marked_after_summary_witness :
  exists st' prefix attempt suffix blocks,
    processAINews Sample.host_utc Sample.env_up Sample.fresh = (Normal tt, st') /\
    effects st'
      = effects Sample.fresh ++ prefix ++ attempt
        ++ processedArticles_add (link Sample.article_23h59) :: suffix /\
    chat_calls prefix = map request_to_summarize [ Sample.article_8h ] /\
    set_adds prefix = map link [ Sample.article_8h ] /\
    append_calls prefix = [] /\
    (forall st0, exists v,
        summarizeArticle Sample.env_up Sample.article_23h59 st0
          = (Normal v, extend st0 attempt)) /\
    chat_calls attempt = [ request_to_summarize Sample.article_23h59 ] /\
    set_adds attempt = [] /\
    append_calls attempt = [] /\
    chat_calls suffix = map request_to_summarize [] /\
    set_adds suffix = map link [] /\
    append_calls suffix = [ blocks ] /\
    (forall b, In b ([ Sample.article_8h ] ++ Sample.article_23h59 :: []) ->
               Set_has (processedArticles st') (link b) = true) /\
    (forall articles summaries st0,
        processedArticles
          (snd (addToNotionPage Sample.host_utc Sample.env_up articles summaries st0))
          = processedArticles st0 /\
        set_adds (effects
          (snd (addToNotionPage Sample.host_utc Sample.env_up articles summaries st0)))
          = set_adds (effects st0)).
Proof.
  apply (link_marked_after_summary Sample.host_utc Sample.env_up Sample.fresh
           [ Sample.article_8h ] Sample.article_23h59 []).
  vm_compute. reflexivity.
Defined.

(** C9, as stated, fails: two configured feeds carry an item with the
    same link; both records are fetched, and the run sends a request for
    each of them. *)
Lemma same_link_summarized_twice :
  fst (fetchLatestArticles Sample.host_utc Sample.env_shared_item Sample.fresh)
    = Normal [ Sample.article_8h; Sample.article_23h59; Sample.article_8h_again ] /\
  link Sample.article_8h = link Sample.article_8h_again /\
  chat_calls (effects (snd (processAINews Sample.host_utc Sample.env_shared_item
                                          Sample.fresh)))
    = [ request_to_summarize Sample.article_8h;
        request_to_summarize Sample.article_23h59;
        request_to_summarize Sample.article_8h_again ] /\
  List.length (filter (fun a => value_eqb (link a) (str "https://example.org/8h"))
                      [ Sample.article_8h; Sample.article_23h59;
                        Sample.article_8h_again ]) = 2%nat.
Proof. repeat split; vm_compute; reflexivity. Qed.

(** Witness for C9 as amended: a run whose fetched links are distinct. *)
Lemma one_request_per_fetched_article_witness :
  NoDup (map link [ Sample.article_8h; Sample.article_23h59 ]) /\
  exists articles st' new,
    fst (fetchLatestArticles Sample.host_utc Sample.env_up Sample.fresh)
      = Normal articles /\
    processAINews Sample.host_utc Sample.env_up Sample.fresh = (Normal tt, st') /\
    effects st' = effects Sample.fresh ++ new /\
    chat_calls new = map request_to_summarize articles /\
    (NoDup (map link articles) ->
     forall l,
       (List.length (filter (fun a => value_eqb (link a) l) articles) <= 1)%nat).
Proof.
  split.
  - repeat constructor; simpl; intuition discriminate.
  - exact (one_request_per_fetched_article Sample.host_utc Sample.env_up Sample.fresh).
Defined.

(** ** Failure of the publish step, and the manual trigger *)

Section Escalation.

Variable host : Host.
Variable env : Env.

(** C1, as the code has it. When the document service rejects the
    append, [addToNotionPage] writes the error to the console and returns
    normally: nothing is thrown to [processAINews].  The run goes on to
    its last line, [AI news processing completed successfully], and
    returns normally; it has made exactly one append call (no retry),
    and every fetched link stays in the set. *)
Theorem publish_failure_is_logged_and_swallowed (e : Error) (st : State) :
  (forall block_id children, blocks_children_append env block_id children = Rejects e) ->
  (forall articles summaries st0,
      exists blocks,
        addToNotionPage host env articles summaries st0
          = (Normal tt,
             extend st0 [ call_blocks_append (NOTION_PAGE_ID host) blocks;
                          console_error_obj "Error adding to Notion:" e ])) /\
  exists articles st' new,
    fst (fetchLatestArticles host env st) = Normal articles /\
    processAINews host env st = (Normal tt, st') /\
    effects st' = effects st ++ new /\
    (articles <> [] ->
     exists earlier blocks,
       new = earlier
             ++ [ call_blocks_append (NOTION_PAGE_ID host) blocks;
                  console_error_obj "Error adding to Notion:" e;
                  console_log "AI news processing completed successfully" ] /\
       append_calls new = [ blocks ]) /\
    (forall a, In a articles -> Set_has (processedArticles st') (link a) = true).
Proof.
  intros Hdown. split.
  - intros articles summaries st0. rewrite addToNotionPage_run.
    unfold publishEffects. rewrite Hdown. eauto.
  - rewrite fetchLatestArticles_run, processAINews_run.
    do 3 eexists. split; [reflexivity|]. split; [reflexivity|].
    split; [reflexivity|]. split.
    + intros Hne.
      destruct (runEffects_calls host env (processedArticles st)) as (_ & _ & Ha).
      unfold runEffects in *. cbv zeta in *.
      destruct (fetched host env (processedArticles st)) as [|a0 rest]; [congruence|].
      unfold publishEffects in *. rewrite Hdown in *.
      exists ([ console_log "Starting AI news processing..." ]
              ++ flat_map (fetchEffects env) RSS_FEEDS
              ++ [ console_log ("Found " +++ Number_toString (List.length (a0 :: rest))
                                +++ " new articles") ]
              ++ flat_map (articleEffects env) (a0 :: rest)).
      eexists. split; [|exact Ha].
      rewrite <- !app_assoc. reflexivity.
    + intros a Ha. cbn [processedArticles]. apply Set_has_In, Set_addAll_In.
      right. now apply in_map.
Qed.

(** The run never throws, whatever the world does. *)
Lemma processAINews_returns (st : State) :
  exists st', processAINews host env st = (Normal tt, st').
Proof. rewrite processAINews_run. eauto. Qed.

(** So the manual trigger always answers 200, in this program. *)
Lemma app_get_run_now_200 (st : State) :
  exists st',
    app_get_run_now host env st
    = (Normal (mkResponse 200 true (Some "AI news processing completed") None), st').
Proof.
  unfold app_get_run_now, run_now_handler, try_catch, bind.
  rewrite processAINews_run. eexists. reflexivity.
Qed.

End Escalation.

(** C2. The handler of [GET /run-now] answers by the completion of the
    run it awaits: when the run returns, status 200 and [success: true];
    when an exception escapes the run, status 500, [success: false] and
    the exception's message as [error]. *)
Theorem run_now_response (run : M unit) (st st' : State) (c : completion unit) :
  run st = (c, st') ->
  exists response,
    run_now_handler run st = (Normal response, st') /\
    match c with
    | Normal _ =>
        status response = 200 /\ success response = true /\
        body_error response = None
    | Throw e =>
        status response = 500 /\ success response = false /\
        body_error response = Some (message e)
    end.
Proof.
  intros Hrun. unfold run_now_handler, try_catch, bind. rewrite Hrun.
  destruct c as [[]|e]; eexists; (split; [reflexivity|]); simpl; auto.
Qed.

(** Witness for C2: the pipeline itself, which returns, and a run that
    throws. *)
Lemma run_now_response_witness :
  (exists response,
      run_now_handler (processAINews Sample.host_utc Sample.env_up) Sample.fresh
        = (Normal response,
           snd (processAINews Sample.host_utc Sample.env_up Sample.fresh)) /\
      status response = 200 /\ success response = true /\
      body_error response = None) /\
  (exists response,
      run_now_handler (throw (mkError (str "boom"))) Sample.fresh
        = (Normal response, Sample.fresh) /\
      status response = 500 /\ success response = false /\
      body_error response = Some (str "boom")).
Proof.
  split.
  - apply (run_now_response (processAINews Sample.host_utc Sample.env_up)
             Sample.fresh
             (snd (processAINews Sample.host_utc Sample.env_up Sample.fresh))
             (Normal tt)).
    vm_compute. reflexivity.
  - apply (run_now_response (throw (mkError (str "boom"))) Sample.fresh Sample.fresh
             (Throw (mkError (str "boom")))).
    reflexivity.
Defined.

(** C1, as stated, fails: the document service rejects the append, and
    neither the publish step nor the run throws; the run's last line
    reports success. *)
Lemma publish_failure_does_not_escalate :
  blocks_children_append Sample.env_append_down (NOTION_PAGE_ID Sample.host_utc)
    (pageBlocks Sample.env_append_down
                [ Sample.article_8h; Sample.article_23h59 ]
                [ str "1. ... 2. ... 3. ..."; str "1. ... 2. ... 3. ..." ])
    = Rejects (mkError (str "Could not find block")) /\
  fst (addToNotionPage Sample.host_utc Sample.env_append_down
         [ Sample.article_8h; Sample.article_23h59 ]
         [ str "1. ... 2. ... 3. ..."; str "1. ... 2. ... 3. ..." ] Sample.fresh)
    = Normal tt /\
  fst (processAINews Sample.host_utc Sample.env_append_down Sample.fresh) = Normal tt /\
  last (effects (snd (processAINews Sample.host_utc Sample.env_append_down Sample.fresh)))
       (console_log EmptyString)
    = console_log "AI news processing completed successfully" /\
  fst (app_get_run_now Sample.host_utc Sample.env_append_down Sample.fresh)
    = Normal (mkResponse 200 true (Some "AI news processing completed") None).
Proof. repeat split; vm_compute; reflexivity. Qed.

(** Witness for C1 as amended: the same world. *)
Lemma publish_failure_is_logged_and_swallowed_witness :
  (forall articles summaries st0,
      exists blocks,
        addToNotionPage Sample.host_utc Sample.env_append_down articles summaries st0
          = (Normal tt,
             extend st0 [ call_blocks_append (NOTION_PAGE_ID Sample.host_utc) blocks;
                          console_error_obj "Error adding to Notion:"
                                            (mkError (str "Could not find block")) ])) /\
  exists articles st' new,
    fst (fetchLatestArticles Sample.host_utc Sample.env_append_down Sample.fresh)
      = Normal articles /\
    processAINews Sample.host_utc Sample.env_append_down Sample.fresh = (Normal tt, st') /\
    effects st' = effects Sample.fresh ++ new /\
    (articles <> [] ->
     exists earlier blocks,
       new = earlier
             ++ [ call_blocks_append (NOTION_PAGE_ID Sample.host_utc) blocks;
                  console_error_obj "Error adding to Notion:"
                                    (mkError (str "Could not find block"));
                  console_log "AI news processing completed successfully" ] /\
       append_calls new = [ blocks ]) /\
    (forall a, In a articles -> Set_has (processedArticles st') (link a) = true).
Proof.
  apply (publish_failure_is_logged_and_swallowed Sample.host_utc Sample.env_append_down
           (mkError (str "Could not find block")) Sample.fresh).
  intros block_id children. reflexivity.
Defined.

(** ** Two runs in one process *)

Section TwoRuns.

Variable host : Host.


Lemma keepItem_recent (env : Env) (feedUrl : string) (seen : list value) (item : Item) :
  keepItem host (yesterday_of host (Date_now env feedUrl)) seen item
  = recent host env feedUrl item && negb (Set_has seen (item_link item)).
Proof. reflexivity. Qed.

(** C8. Let a run be made in world [env1] and a second one in world
    [env2] of the same process, where every feed answers as it did and
    whatever is recent for the second run was recent for the first.  Then
    the second run fetches no article: it sends no request to the model,
    makes no append, writes nothing to the set, and ends with
    [No new articles found]. *)
Theorem second_run_finds_nothing (env1 env2 : Env) (st0 : State) :
  (forall feedUrl, parseURL env2 feedUrl = parseURL env1 feedUrl) ->
  (forall feedUrl feed item,
      parseURL env1 feedUrl = Resolves feed ->
      In item (feed_items feed) ->
      recent host env2 feedUrl item = true ->
      recent host env1 feedUrl item = true) ->
  exists st1 st2 new,
    processAINews host env1 st0 = (Normal tt, st1) /\
    fst (fetchLatestArticles host env2 st1) = Normal [] /\
    processAINews host env2 st1 = (Normal tt, st2) /\
    processedArticles st2 = processedArticles st1 /\
    effects st2 = effects st1 ++ new /\
    chat_calls new = [] /\
    append_calls new = [] /\
    set_adds new = [] /\
    last new (console_log EmptyString) = console_log "No new articles found".
Proof.
  intros Hfeeds Hwindow.
  rewrite (processAINews_run host env1 st0).
  set (seen0 := processedArticles st0).
  set (seen1 := Set_addAll seen0 (map link (fetched host env1 seen0))).
  assert (Hnone : fetched host env2 seen1 = []).
  { destruct (fetched host env2 seen1) as [|a rest] eqn:E; [reflexivity|exfalso].
    assert (Ha : In a (fetched host env2 seen1)) by (rewrite E; simpl; auto).
    unfold fetched in Ha. apply in_flat_map in Ha. destruct Ha as (url & Hurl & Ha).
    apply contribution_In in Ha. destruct Ha as (feed & item & Hf & Hi & Hk & _).
    rewrite Hfeeds in Hf. rewrite keepItem_recent in Hk.
    apply andb_true_iff in Hk. destruct Hk as [Hr Hnew].
    apply negb_true_iff in Hnew.
    assert (Hseen : In (item_link item) seen1); [|apply Set_has_In in Hseen; congruence].
    apply Set_addAll_In.
    destruct (Set_has seen0 (item_link item)) eqn:Hs0.
    - left. now apply Set_has_In.
    - right. apply in_map_iff. exists (toArticle feed url item). split; [reflexivity|].
      unfold fetched. apply in_flat_map. exists url. split; [assumption|].
      apply contribution_In. exists feed, item. repeat split; try assumption.
      rewrite keepItem_recent, Hs0, (Hwindow url feed item Hf Hi Hr). reflexivity. }
  exists (mkState seen1 (effects st0 ++ runEffects host env1 seen0)).
  rewrite fetchLatestArticles_run, processAINews_run. cbn [processedArticles effects fst].
  rewrite Hnone.
  destruct (runEffects_calls host env2 seen1) as (C1 & C2 & C3).
  rewrite Hnone in C1, C2, C3.
  do 2 eexists. split; [reflexivity|]. split; [reflexivity|].
  split; [reflexivity|]. split; [reflexivity|]. split; [reflexivity|].
  split; [exact C1|]. split; [exact C3|]. split; [exact C2|].
  unfold runEffects. cbv zeta. rewrite Hnone.
  rewrite !app_assoc. apply last_last.
Qed.

End TwoRuns.

(** Witness for C8: the same world twice, from a fresh process. *)
Lemma second_run_finds_nothing_witness :
  exists st1 st2 new,
    processAINews Sample.host_utc Sample.env_up Sample.fresh = (Normal tt, st1) /\
    fst (fetchLatestArticles Sample.host_utc Sample.env_up st1) = Normal [] /\
    processAINews Sample.host_utc Sample.env_up st1 = (Normal tt, st2) /\
    processedArticles st2 = processedArticles st1 /\
    effects st2 = effects st1 ++ new /\
    chat_calls new = [] /\
    append_calls new = [] /\
    set_adds new = [] /\
    last new (console_log EmptyString) = console_log "No new articles found".
Proof.
  apply (second_run_finds_nothing Sample.host_utc Sample.env_up Sample.env_up
           Sample.fresh).
  - intros feedUrl. reflexivity.
  - intros feedUrl feed item _ _ H. exact H.
Defined.

(** * Further properties of the pipeline *)

(** ** More of the program, and more to read off the effects *)

(** The URLs handed to [parser.parseURL] among some effects, in order. *)
Fixpoint parse_calls (es : list Effect) : list string :=
  match es with
  | [] => []
  | call_parseURL feedUrl :: es => feedUrl :: parse_calls es
  | _ :: es => parse_calls es
  end.

(** The pauses ([setTimeout] delays, in milliseconds) among some effects. *)
Fixpoint waits (es : list Effect) : list Z :=
  match es with
  | [] => []
  | wait_setTimeout ms :: es => ms :: waits es
  | _ :: es => waits es
  end.

(** The callback given to [cron.schedule], lines 224-227: a console line,
    then the run (whose promise the callback does not await; with no
    other trigger in flight its effects follow in this order). *)
Definition scheduled_job (host : Host) (env : Env) : M unit :=
  emit (console_log "Running scheduled AI news aggregation at 7 AM KST") ;;
  processAINews host env.

(** The process over several runs, one world per run. *)
Fixpoint runs (host : Host) (envs : list Env) (st : State) : State :=
  match envs with
  | [] => st
  | env :: rest => runs host rest (snd (processAINews host env st))
  end.

Module More.

(** A world in which no feed can be reached. *)
Definition no_feed (_ : string) : Reply Feed := Rejects Sample.unreachable.

Definition env_offline : Env := Sample.world no_feed Sample.chat_up Sample.append_up.

(** An article whose content is missing. *)
Definition article_without_content : Article :=
  {| title := str "Untitled draft";
     link := str "https://example.org/draft";
     content := undefined;
     source := str "OpenAI Blog";
     pubDate := undefined;
     summary := str EmptyString |}.

End More.

Lemma parse_calls_app (a b : list Effect) :
  parse_calls (a ++ b) = parse_calls a ++ parse_calls b.
Proof.
  induction a as [|e a IH]; simpl; [reflexivity|].
  destruct e; simpl; now rewrite ?IH.
Qed.

Lemma waits_app (a b : list Effect) : waits (a ++ b) = waits a ++ waits b.
Proof.
  induction a as [|e a IH]; simpl; [reflexivity|].
  destruct e; simpl; now rewrite ?IH.
Qed.

Lemma fetchEffects_parse_calls (env : Env) (feeds : list string) :
  parse_calls (flat_map (fetchEffects env) feeds) = feeds /\
  waits (flat_map (fetchEffects env) feeds) = [].
Proof.
  induction feeds as [|url rest [IH1 IH2]]; simpl; [auto|].
  rewrite parse_calls_app, waits_app, IH1, IH2.
  destruct (parseURL env url); simpl; auto.
Qed.

Lemma summarizeEffects_waits (env : Env) (a : Article) :
  waits (summarizeEffects env a) = [] /\ parse_calls (summarizeEffects env a) = [].
Proof.
  unfold summarizeEffects. rewrite waits_app, parse_calls_app.
  destruct (content a), (upstream env a); simpl; auto.
Qed.

Lemma articleEffects_waits (env : Env) (articles : list Article) :
  waits (flat_map (articleEffects env) articles)
    = repeat 1000 (List.length articles) /\
  parse_calls (flat_map (articleEffects env) articles) = [].
Proof.
  induction articles as [|a rest [IH1 IH2]]; simpl; [auto|].
  destruct (summarizeEffects_waits env a) as [W P].
  rewrite !waits_app, !parse_calls_app, W, P, IH1, IH2. simpl. auto.
Qed.

Lemma publishEffects_waits (host : Host) (env : Env)
    (articles : list Article) (summaries : list value) :
  waits (publishEffects host env articles summaries) = [] /\
  parse_calls (publishEffects host env articles summaries) = [].
Proof.
  unfold publishEffects. simpl.
  destruct (blocks_children_append env _ _); simpl; auto.
Qed.

(** ** The fetch step *)

Section FetchMore.

Variable host : Host.
Variable env : Env.

(** X1. The fetch step only reads: whatever the feeds do, it returns
    normally, leaves [processedArticles] as it was, asks [parseURL] for
    each configured feed exactly once and in the configured order (a
    failing feed does not stop the later ones), and sends nothing to the
    language model or the document service, nor does it pause. *)
Theorem fetch_only_reads (feeds : list string) (st : State) :
  exists articles st' new,
    fetchLatestArticlesFrom host env feeds st = (Normal articles, st') /\
    processedArticles st' = processedArticles st /\
    effects st' = effects st ++ new /\
    parse_calls new = feeds /\
    chat_calls new = [] /\
    append_calls new = [] /\
    set_adds new = [] /\
    waits new = [].
Proof.
  unfold fetchLatestArticlesFrom. rewrite fetchEach_run.
  destruct (fetchEffects_calls env feeds) as (C & A & S).
  destruct (fetchEffects_parse_calls env feeds) as (P & W).
  do 3 eexists. split; [reflexivity|]. cbn [extend processedArticles effects].
  repeat split; assumption.
Qed.

(** X2. The fetch step keeps the order of the feeds and of the items
    within a feed: over a list of feeds followed by another it returns
    the articles of the first list followed by those of the second, and
    over one feed that parsed it returns the articles of the items that
    pass the filter, in the order the feed lists them. *)
Theorem fetch_keeps_order (feeds1 feeds2 : list string) (st : State) :
  (exists articles1 articles2,
      fst (fetchLatestArticlesFrom host env feeds1 st) = Normal articles1 /\
      fst (fetchLatestArticlesFrom host env feeds2 st) = Normal articles2 /\
      fst (fetchLatestArticlesFrom host env (feeds1 ++ feeds2) st)
        = Normal (articles1 ++ articles2)) /\
  (forall feedUrl feed,
      parseURL env feedUrl = Resolves feed ->
      fst (fetchLatestArticlesFrom host env [ feedUrl ] st)
        = Normal (map (toArticle feed feedUrl)
                      (filter (keepItem host (yesterday_of host (Date_now env feedUrl))
                                        (processedArticles st))
                              (feed_items feed)))).
Proof.
  unfold fetchLatestArticlesFrom. split.
  - rewrite !fetchEach_run. cbn [fst app]. do 2 eexists.
    split; [reflexivity|]. split; [reflexivity|]. now rewrite flat_map_app.
  - intros feedUrl feed Hfeed. rewrite fetchEach_run. cbn [fst app flat_map].
    unfold contribution. rewrite Hfeed. now rewrite app_nil_r.
Qed.

(** X3. The fetch step never returns a link that is already in
    [processedArticles]: every article it returns was built from an item
    of a configured feed that parsed, whose date is after the threshold
    and whose link is not in the set. *)
Theorem fetch_skips_seen_links (feeds : list string) (st : State) :
  exists articles st',
    fetchLatestArticlesFrom host env feeds st = (Normal articles, st') /\
    forall a,
      In a articles ->
      Set_has (processedArticles st) (link a) = false /\
      exists feedUrl feed item,
        In feedUrl feeds /\ parseURL env feedUrl = Resolves feed /\
        In item (feed_items feed) /\ a = toArticle feed feedUrl item /\
        recent host env feedUrl item = true.
Proof.
  unfold fetchLatestArticlesFrom. rewrite fetchEach_run.
  do 2 eexists. split; [reflexivity|]. cbn [app].
  intros a Ha. apply in_flat_map in Ha. destruct Ha as (url & Hurl & Ha).
  apply contribution_In in Ha. destruct Ha as (feed & item & Hf & Hi & Hk & ->).
  rewrite keepItem_recent in Hk. apply andb_true_iff in Hk. destruct Hk as [Hr Hn].
  apply negb_true_iff in Hn. split; [exact Hn|].
  exists url, feed, item. auto.
Qed.

End FetchMore.



Section Shape.

Variable host : Host.
Variable env : Env.


End Shape.

(** ** The threshold *)

Section Threshold.

Variable host : Host.

(** X5. On any host, the threshold of lines 44-45 is the instant whose
    local reading is that of [now] on the calendar day before, at the
    same time of day - also on the first of a month or of a year; it is
    then taken back to UTC with the zone's offset for that local
    reading. *)
Theorem threshold_is_one_local_day_back (now : Z) :
  let local := DateObj.LocalTime (LocalTZA host) now in
  yesterday_of host now
    = DateObj.TimeClip (DateObj.UTC (LocalTZA host) (local - DateObj.msPerDay)) /\
  DateObj.Day (local - DateObj.msPerDay) = DateObj.Day local - 1 /\
  DateObj.TimeWithinDay (local - DateObj.msPerDay) = DateObj.TimeWithinDay local.
Proof.
  cbv zeta. split; [apply DateFacts.setDate_day_before|].
  unfold DateObj.Day, DateObj.TimeWithinDay, DateObj.msPerDay.
  set (t := DateObj.LocalTime (LocalTZA host) now).
  pose proof (Z.div_mod t 86400000 ltac:(lia)).
  pose proof (Z.div_mod (t - 86400000) 86400000 ltac:(lia)).
  pose proof (Z.mod_pos_bound t 86400000 ltac:(lia)).
  pose proof (Z.mod_pos_bound (t - 86400000) 86400000 ltac:(lia)).
  split; nia.
Qed.

(** X6. On a host whose zone offset never changes (UTC, Asia/Seoul),
    with the clock in the range of [Date], an item with a readable date
    passes the filter exactly when it was published strictly after
    [now - 24h] and its link is not in the set; an item published exactly
    24 hours before is dropped. *)
Theorem recency_rule_on_fixed_offset
    (offset now t : Z) (seen : list value) (item : Item) :
  (forall u isUTC, LocalTZA host u isUTC = offset) ->
  Z.abs (now - 86400000) <= 8640000000000000 ->
  new_Date host (item_pubDate item || item_isoDate item)%js = Some t ->
  (keepItem host (yesterday_of host now) seen item = true
   <-> now - 86400000 < t /\ Set_has seen (item_link item) = false) /\
  (t = now - 86400000 -> keepItem host (yesterday_of host now) seen item = false).
Proof.
  intros Hzone Hrange Hdate.
  assert (Hy : yesterday_of host now = Some (now - 86400000)).
  { rewrite (yesterday_of_fixed_offset host offset now Hzone).
    unfold DateObj.TimeClip.
    destruct (Z.leb_spec (Z.abs (now - 86400000)) 8640000000000000); [reflexivity|lia]. }
  unfold keepItem. cbv zeta. rewrite Hdate, Hy. simpl. split.
  - rewrite andb_true_iff, negb_true_iff, Z.ltb_lt. reflexivity.
  - intros ->. now rewrite Z.ltb_irrefl.
Qed.

End Threshold.

(** Witness for X6: a UTC host and the item published 23h59m before. *)
Lemma recency_rule_on_fixed_offset_witness :
  (keepItem Sample.host_utc (yesterday_of Sample.host_utc Sample.now) []
            Sample.item_23h59 = true
   <-> Sample.now - 86400000 < 1710003660000 /\
       Set_has [] (item_link Sample.item_23h59) = false) /\
  (1710003660000 = Sample.now - 86400000 ->
   keepItem Sample.host_utc (yesterday_of Sample.host_utc Sample.now) []
            Sample.item_23h59 = false).
Proof.
  apply (recency_rule_on_fixed_offset Sample.host_utc 0 Sample.now 1710003660000 []
           Sample.item_23h59).
  - intros u isUTC. reflexivity.
  - vm_compute. discriminate.
  - reflexivity.
Defined.

(** ** The summarization client *)








Section Client.

Variable env : Env.


(** X8. [summarizeArticle] on an article whose content is not a string
    sends nothing to the model: reading the content throws, the error is
    written to the console, and the fallback with the title comes back;
    [processedArticles] is not touched. *)
Theorem summarize_without_content (article : Article) (st : State) :
  (forall s, content article <> str s) ->
  exists e,
    summarizeArticle env article st
      = (Normal (str ("요약 생성 실패: " +++ ToString (title article))),
         extend st [ console_error_obj "Error summarizing article:" e ]).
Proof.
  intros Hc. rewrite summarizeArticle_run.
  unfold summaryOf, summarizeEffects, upstream.
  destruct (content article) as [| |s];
    [eexists; reflexivity | eexists; reflexivity | destruct (Hc s eq_refl)].
Qed.

(** X9. When the model answers and its first choice has a message,
    [summarizeArticle] returns that message's content as it is (a
    string, or [null]), whatever the other choices hold; it sends this
    one request, writes nothing to the console and leaves
    [processedArticles] alone. *)
Theorem summarize_returns_first_choice
    (article : Article) (s : string) (c : Choice) (others : list Choice)
    (v : value) (st : State) :
  content article = str s ->
  chat_completions_create env (request_for article s) = Resolves (c :: others) ->
  choice_message c = Some v ->
  summarizeArticle env article st
    = (Normal v, extend st [ call_chat_create (request_for article s) ]).
Proof.
  intros Hs Hr Hc. rewrite summarizeArticle_run.
  unfold summaryOf, summarizeEffects, upstream. now rewrite Hs, Hr, Hc.
Qed.

End Client.


(** Witness for X8: an article without content. *)
Lemma summarize_without_content_witness :
  exists e,
    summarizeArticle Sample.env_up More.article_without_content Sample.fresh
      = (Normal (str ("요약 생성 실패: "
                      +++ ToString (title More.article_without_content))),
         extend Sample.fresh [ console_error_obj "Error summarizing article:" e ]).
Proof.
  apply (summarize_without_content Sample.env_up More.article_without_content
           Sample.fresh).
  intros s. discriminate.
Defined.

(** Witness for X9: the sample model answers with one choice. *)
Lemma summarize_returns_first_choice_witness :
  summarizeArticle Sample.env_up Sample.article_8h Sample.fresh
    = (Normal (str "1. ... 2. ... 3. ..."),
       extend Sample.fresh
         [ call_chat_create (request_for Sample.article_8h "A short description.") ]).
Proof.
  apply (summarize_returns_first_choice Sample.env_up Sample.article_8h
           "A short description." (mkChoice (Some (str "1. ... 2. ... 3. ..."))) []
           (str "1. ... 2. ... 3. ...") Sample.fresh); reflexivity.
Defined.

(** ** The set of processed links *)

Lemma Set_addAll_NoDup (vs : list value) : forall s : list value,
  NoDup s -> NoDup (Set_addAll s vs).
Proof.
  unfold Set_addAll. induction vs as [|v vs IH]; intros s Hs; simpl; [assumption|].
  apply IH, Set_add_NoDup, Hs.
Qed.

(** Adding values keeps what is there, in place, and puts the new ones
    behind. *)
Lemma Set_addAll_prefix (vs : list value) : forall s : list value,
  exists added,
    Set_addAll s vs = s ++ added /\
    forall l, In l added <-> In l vs /\ ~ In l s.
Proof.
  unfold Set_addAll. induction vs as [|v vs IH]; intros s; simpl.
  - exists []. rewrite app_nil_r. split; [reflexivity|]. simpl. tauto.
  - unfold Set_add at 2. destruct (Set_has s v) eqn:E.
    + apply Set_has_In in E. destruct (IH s) as (added & Heq & Hin).
      exists added. split; [exact Heq|]. intros l. rewrite Hin.
      split; [tauto|]. intros [[<- | H] Hn]; tauto.
    + assert (Hv : ~ In v s) by (rewrite <- Set_has_In; congruence).
      destruct (IH (s ++ [v])) as (added & Heq & Hin).
      exists (v :: added). split; [rewrite Heq, <- app_assoc; reflexivity|].
      intros l. simpl. rewrite Hin, in_app_iff. simpl.
      destruct (value_eqb_spec v l) as [<- | Hne]; tauto.
Qed.

Section Growth.

Variable host : Host.

(** X10. A run only ever adds to [processedArticles]: the links that
    were there stay, in their places; the links of the fetched articles
    come behind them, each once (however many fetched articles share
    it); and a set without duplicates stays without duplicates. *)
Theorem run_extends_processedArticles (env : Env) (st : State) :
  NoDup (processedArticles st) ->
  exists articles st' added,
    fst (fetchLatestArticles host env st) = Normal articles /\
    processAINews host env st = (Normal tt, st') /\
    processedArticles st' = processedArticles st ++ added /\
    NoDup (processedArticles st') /\
    forall l, In l added <-> In l (map link articles).
Proof.
  intros Hnd. rewrite fetchLatestArticles_run, processAINews_run. cbn [fst].
  destruct (Set_addAll_prefix (map link (fetched host env (processedArticles st)))
                              (processedArticles st)) as (added & Heq & Hin).
  do 2 eexists. exists added. split; [reflexivity|]. split; [reflexivity|].
  cbn [processedArticles]. split; [exact Heq|]. split.
  - now apply Set_addAll_NoDup.
  - intros l. rewrite Hin. split; [tauto|]. intros Hl. split; [exact Hl|].
    apply in_map_iff in Hl. destruct Hl as (a & <- & Ha).
    unfold fetched in Ha. apply in_flat_map in Ha. destruct Ha as (url & _ & Ha).
    apply contribution_In in Ha. destruct Ha as (feed & item & _ & _ & Hk & ->).
    apply keepItem_true in Hk. exact (proj2 Hk).
Qed.

Lemma runs_grow (envs : list Env) : forall st : State,
  NoDup (processedArticles st) ->
  exists added new,
    processedArticles (runs host envs st) = processedArticles st ++ added /\
    NoDup (processedArticles (runs host envs st)) /\
    effects (runs host envs st) = effects st ++ new.
Proof.
  induction envs as [|env rest IH]; intros st Hnd; simpl.
  - exists [], []. rewrite !app_nil_r. auto.
  - rewrite processAINews_run. cbn [snd].
    destruct (Set_addAll_prefix (map link (fetched host env (processedArticles st)))
                                (processedArticles st)) as (added1 & Heq & _).
    set (st1 := mkState _ _).
    destruct (IH st1) as (added2 & new2 & H1 & H2 & H3).
    { subst st1. cbn [processedArticles]. now apply Set_addAll_NoDup. }
    exists (added1 ++ added2). eexists. split; [|split; [exact H2|]].
    + rewrite H1. subst st1. cbn [processedArticles]. rewrite Heq.
      now rewrite app_assoc.
    + rewrite H3. subst st1. cbn [effects]. rewrite <- app_assoc. reflexivity.
Qed.

(** X11. Over any number of runs in one process, whatever the worlds of
    the runs, [processedArticles] changes only by growing at its end and
    never holds a link twice; so [GET /processed] reports, after the
    runs, the links it reported before them, in the same order, followed
    by the new ones, and its [count] is the number of distinct links. *)
Theorem processed_links_only_grow (envs : list Env) (st : State) :
  NoDup (processedArticles st) ->
  exists added,
    app_get_processed (runs host envs st)
      = ((List.length (processedArticles st) + List.length added)%nat,
         snd (app_get_processed st) ++ added) /\
    NoDup (snd (app_get_processed (runs host envs st))) /\
    (forall l, In l (processedArticles st) ->
               Set_has (processedArticles (runs host envs st)) l = true).
Proof.
  intros Hnd. destruct (runs_grow envs st Hnd) as (added & new & H1 & H2 & _).
  exists added. unfold app_get_processed. cbn [snd]. rewrite H1 in *.
  rewrite length_app. split; [reflexivity|]. split; [exact H2|].
  intros l Hl. apply Set_has_In, in_app_iff. auto.
Qed.

End Growth.

(** Witness for X10: a run from a fresh process. *)
Lemma run_extends_processedArticles_witness :
  exists articles st' added,
    fst (fetchLatestArticles Sample.host_utc Sample.env_shared_item Sample.fresh)
      = Normal articles /\
    processAINews Sample.host_utc Sample.env_shared_item Sample.fresh = (Normal tt, st') /\
    processedArticles st' = processedArticles Sample.fresh ++ added /\
    NoDup (processedArticles st') /\
    forall l, In l added <-> In l (map link articles).
Proof.
  apply (run_extends_processedArticles Sample.host_utc Sample.env_shared_item
           Sample.fresh).
  constructor.
Defined.

(** Witness for X11: three runs from a fresh process. *)
Lemma processed_links_only_grow_witness :
  exists added,
    app_get_processed
      (runs Sample.host_utc
            [ Sample.env_up; Sample.env_shared_item; Sample.env_append_down ]
            Sample.fresh)
      = ((List.length (processedArticles Sample.fresh) + List.length added)%nat,
         snd (app_get_processed Sample.fresh) ++ added) /\
    NoDup (snd (app_get_processed
                  (runs Sample.host_utc
                        [ Sample.env_up; Sample.env_shared_item; Sample.env_append_down ]
                        Sample.fresh))) /\
    (forall l, In l (processedArticles Sample.fresh) ->
               Set_has (processedArticles
                          (runs Sample.host_utc
                                [ Sample.env_up; Sample.env_shared_item;
                                  Sample.env_append_down ]
                                Sample.fresh)) l = true).
Proof.
  apply (processed_links_only_grow Sample.host_utc
           [ Sample.env_up; Sample.env_shared_item; Sample.env_append_down ]
           Sample.fresh).
  constructor.
Defined.

(** ** The orchestrator *)

Section Orchestrator.

Variable host : Host.
Variable env : Env.

Lemma runEffects_waits (seen : list value) :
  waits (runEffects host env seen)
    = repeat 1000 (List.length (fetched host env seen)) /\
  parse_calls (runEffects host env seen) = RSS_FEEDS.
Proof.
  unfold runEffects. cbv zeta.
  destruct (fetchEffects_parse_calls env RSS_FEEDS) as (P & W).
  remember (flat_map (fetchEffects env) RSS_FEEDS) as fe eqn:Hfe. clear Hfe.
  destruct (fetched host env seen) as [|a arts].
  - repeat (progress (cbn [app waits parse_calls];
                      rewrite ?waits_app, ?parse_calls_app)).
    rewrite P, W, app_nil_r. split; reflexivity.
  - destruct (articleEffects_waits env (a :: arts)) as (AW & AP).
    destruct (publishEffects_waits host env (a :: arts)
                (map (summaryOf env) (a :: arts))) as (PW & PP).
    repeat (progress (cbn [app waits parse_calls];
                      rewrite ?waits_app, ?parse_calls_app)).
    rewrite P, W, AW, AP, PW, PP. cbn [app]. now rewrite !app_nil_r.
Qed.

(** X12. When the fetch step returns no article, the run ends at once
    and normally: it logs [Found 0 new articles] and
    [No new articles found], sends nothing to the language model, makes
    no append (not even of a heading alone), does not pause, and leaves
    [processedArticles] as it was. *)
Theorem empty_batch_ends_the_run (st : State) :
  fst (fetchLatestArticles host env st) = Normal [] ->
  exists st' new,
    processAINews host env st = (Normal tt, st') /\
    processedArticles st' = processedArticles st /\
    effects st' = effects st ++ new ++ [ console_log "Found 0 new articles";
                                         console_log "No new articles found" ] /\
    chat_calls new = [] /\
    append_calls new = [] /\
    set_adds new = [] /\
    waits new = [].
Proof.
  rewrite fetchLatestArticles_run. cbn [fst]. intros Hnone. injection Hnone as Hnone.
  rewrite processAINews_run. unfold runEffects. cbv zeta. rewrite Hnone.
  destruct (fetchEffects_calls env RSS_FEEDS) as (C & A & S).
  destruct (fetchEffects_parse_calls env RSS_FEEDS) as (_ & W).
  exists (mkState (processedArticles st)
                  (effects st ++
                   [ console_log "Starting AI news processing..." ]
                   ++ flat_map (fetchEffects env) RSS_FEEDS
                   ++ [ console_log "Found 0 new articles";
                        console_log "No new articles found" ])).
  exists ([ console_log "Starting AI news processing..." ]
          ++ flat_map (fetchEffects env) RSS_FEEDS).
  split; [reflexivity|]. split; [reflexivity|].
  split; [cbn [effects]; rewrite <- !app_assoc; reflexivity|].
  cbn [app chat_calls append_calls set_adds waits]. auto.
Qed.

(** X13. A run pauses 1000 ms once per fetched article and at no other
    time - so also after the last article, before the append - and asks
    [parseURL] for each of the eight configured feeds once, in their
    order. *)
Theorem one_pause_per_article (st : State) :
  exists articles st' new,
    fst (fetchLatestArticles host env st) = Normal articles /\
    processAINews host env st = (Normal tt, st') /\
    effects st' = effects st ++ new /\
    waits new = repeat 1000 (List.length articles) /\
    parse_calls new = RSS_FEEDS /\
    (articles <> [] ->
     exists earlier blocks later,
       new = earlier ++ wait_setTimeout 1000
                     :: call_blocks_append (NOTION_PAGE_ID host) blocks :: later /\
       chat_calls earlier = map request_to_summarize articles /\
       chat_calls later = [] /\ waits later = []).
Proof.
  rewrite fetchLatestArticles_run, processAINews_run.
  destruct (runEffects_waits (processedArticles st)) as (W & P).
  do 3 eexists. split; [reflexivity|]. split; [reflexivity|].
  split; [reflexivity|]. split; [exact W|]. split; [exact P|].
  intros Hne. cbn [fst] in Hne.
  pose proof (fetched_content host env (processedArticles st)) as Hstr.
  unfold runEffects. cbv zeta.
  destruct (fetchEffects_calls env RSS_FEEDS) as (FC & _ & _).
  remember (flat_map (fetchEffects env) RSS_FEEDS) as fe eqn:Hfe. clear Hfe.
  remember (fetched host env (processedArticles st)) as articles eqn:E. clear E.
  destruct (exists_last Hne) as (front & a & ->).
  assert (Hfront : forall b, In b front -> exists s, content b = str s).
  { intros b Hb. apply Hstr, in_app_iff. auto. }
  destruct (Hstr a) as [s Hs]; [apply in_app_iff; simpl; auto|].
  destruct (articleEffects_calls env front Hfront) as (AC & _ & _).
  destruct (summarizeEffects_calls env a) as (SC & _ & _). specialize (SC s Hs).
  exists ([ console_log "Starting AI news processing..." ] ++ fe
          ++ [ console_log ("Found "
                            +++ Number_toString (List.length (front ++ [a]))
                            +++ " new articles") ]
          ++ flat_map (articleEffects env) front
          ++ [ console_log ("Summarizing: " +++ ToString (title a)) ]
          ++ summarizeEffects env a ++ [ processedArticles_add (link a) ]).
  exists (pageBlocks env (front ++ [a]) (map (summaryOf env) (front ++ [a]))).
  exists (match blocks_children_append env (NOTION_PAGE_ID host)
                  (pageBlocks env (front ++ [a]) (map (summaryOf env) (front ++ [a]))) with
          | Resolves _ =>
              [ console_log ("Successfully added "
                             +++ Number_toString (List.length (front ++ [a]))
                             +++ " articles to Notion") ]
          | Rejects e => [ console_error_obj "Error adding to Notion:" e ]
          end ++ [ console_log "AI news processing completed successfully" ]).
  split; [|split; [|split]].
  - destruct (front ++ [a]) eqn:E; [destruct front; discriminate|]. rewrite <- E.
    rewrite flat_map_app. cbn [flat_map]. unfold articleEffects at 2, publishEffects.
    rewrite app_nil_r. repeat (progress (rewrite <- ?app_assoc; cbn [app])).
    reflexivity.
  - repeat (progress (cbn [app chat_calls]; rewrite ?chat_calls_app)).
    rewrite FC, AC, SC, map_app. cbn. reflexivity.
  - rewrite chat_calls_app.
    destruct (blocks_children_append env _ _); reflexivity.
  - rewrite waits_app.
    destruct (blocks_children_append env _ _); reflexivity.
Qed.

(** X14. The page of a run pairs each fetched article with its own
    summary: the single append carries [1 + 4n] blocks for [n] fetched
    articles, and for the article at position [i] the block at [1 + 4i]
    is the heading with its title and the block at [3 + 4i] is the
    paragraph with what [summarizeArticle] returns for that article - or
    the placeholder [요약 없음] when that is [null] or empty. *)
Theorem page_pairs_article_with_summary (st : State) :
  exists articles st' new,
    fst (fetchLatestArticles host env st) = Normal articles /\
    processAINews host env st = (Normal tt, st') /\
    effects st' = effects st ++ new /\
    (articles <> [] ->
     exists blocks,
       append_calls new = [ blocks ] /\
       List.length blocks = (1 + 4 * List.length articles)%nat /\
       forall i a,
         nth_error articles i = Some a ->
         exists v,
           (forall st0, fst (summarizeArticle env a st0) = Normal v) /\
           nth_error blocks (1 + 4 * i)
             = Some (heading_3 [ mkRichText (title a) None true None ]) /\
           nth_error blocks (3 + 4 * i)
             = Some (paragraph
                       [ mkRichText (if truthy v then v else str "요약 없음")
                                    None false None ])).
Proof.
  rewrite fetchLatestArticles_run, processAINews_run.
  do 3 eexists. split; [reflexivity|]. split; [reflexivity|].
  split; [reflexivity|]. cbn [fst]. intros Hne.
  destruct (runEffects_calls host env (processedArticles st)) as (_ & _ & Ha).
  remember (fetched host env (processedArticles st)) as articles eqn:E. clear E.
  destruct articles as [|a0 rest]; [congruence|].
  eexists. split; [exact Ha|]. split.
  - unfold pageBlocks. cbn [List.length]. now rewrite blocksFrom_length.
  - intros i a Hi. exists (summaryOf env a). split.
    + intros st0. now rewrite summarizeArticle_run.
    + unfold pageBlocks.
      destruct (blocksFrom_nth (map (summaryOf env) (a0 :: rest)) (a0 :: rest) 0 i a Hi)
        as (H0 & _ & H2 & _).
      split.
      * exact H0.
      * change (3 + 4 * i)%nat with (S (2 + 4 * i)). cbn [nth_error].
        rewrite H2. unfold summaryParagraph. cbn [Nat.add].
        now rewrite (at_index_map (summaryOf env) (a0 :: rest) i a Hi).
Qed.

(** X15. In this program the manual trigger always answers 200 with
    [success: true] once the run is over, whatever failed inside the run
    (feeds, model, document service): it ends in the state the run ends
    in, and the 500 answer is never sent. *)
Theorem manual_trigger_always_answers_200 (st : State) :
  exists st',
    processAINews host env st = (Normal tt, st') /\
    app_get_run_now host env st
      = (Normal (mkResponse 200 true (Some "AI news processing completed") None), st').
Proof.
  unfold app_get_run_now, run_now_handler, try_catch, bind.
  rewrite processAINews_run. eexists. split; reflexivity.
Qed.

(** X16. The scheduled job never throws, so its unawaited promise is
    never rejected; and it does what the manual trigger does: after its
    own console line it performs the same effects and leaves the same
    set, since a run depends on the set and the world only, not on what
    the process did before. *)
Theorem scheduled_job_runs_like_manual_trigger (st : State) :
  exists st1 st2 response new,
    scheduled_job host env st = (Normal tt, st1) /\
    app_get_run_now host env st = (Normal response, st2) /\
    processedArticles st1 = processedArticles st2 /\
    effects st2 = effects st ++ new /\
    effects st1
      = effects st
        ++ console_log "Running scheduled AI news aggregation at 7 AM KST" :: new.
Proof.
  unfold scheduled_job, app_get_run_now, run_now_handler, try_catch.
  unfold bind at 1. rewrite emit_run. unfold bind at 1.
  rewrite !processAINews_run. cbn [extend processedArticles effects].
  do 4 eexists. split; [reflexivity|]. split; [reflexivity|].
  cbn [processedArticles effects]. split; [reflexivity|]. split; [reflexivity|].
  rewrite <- app_assoc. reflexivity.
Qed.

End Orchestrator.

(** Witness for X12: no feed can be reached. *)
Lemma empty_batch_ends_the_run_witness :
  exists st' new,
    processAINews Sample.host_utc More.env_offline Sample.fresh = (Normal tt, st') /\
    processedArticles st' = processedArticles Sample.fresh /\
    effects st' = effects Sample.fresh
                  ++ new ++ [ console_log "Found 0 new articles";
                              console_log "No new articles found" ] /\
    chat_calls new = [] /\
    append_calls new = [] /\
    set_adds new = [] /\
    waits new = [].
Proof.
  apply (empty_batch_ends_the_run Sample.host_utc More.env_offline Sample.fresh).
  reflexivity.
Defined.
